(** * form-ninja: a shallow embedding of the validation core

    The development follows the layout of the sources:

    - [Js]          the fragment of JavaScript values and coercions the code
                    relies on (truthiness, [parseInt], [String.prototype.trim],
                    template literals, relational comparison);
    - [Types]       src/types/index.ts;
    - [Validators]  src/modules/validators.ts;
    - [Dom]         the part of the DOM the library reads and writes;
    - [Constants]   the list of built-in validator names;
    - [Services]    src/services/value.ts, error.ts and helper.ts;
    - [Controller]  src/modules/form-ninja.ts (class FormNinja);
    - [Samples]     markup used in examples;
    - [Statements]  the vocabulary the theorems are stated in;
    - [Invariants]  where the embedding and the browser agree, and the
                    vocabulary of the round-trip properties.

    Strings are sequences of code units below 256. The embedding reads the
    browser in four places more simply than the browser behaves:

    - the form is the flat list of its descendants, and an error paragraph
      holds text, not elements, so that assigning [innerHTML] neither adds
      nor removes a descendant;
    - a query is a search for the first element, in document order, with
      the given attribute value, whereas the code writes the control name
      into the text of a selector, and for a name that breaks that text
      [querySelector] raises a SyntaxError (which [showError] and
      [hideError] catch, giving up what they were doing);
    - [element.value] is a slot, whereas the browser sanitises what is
      assigned according to the type of the control;
    - the registry of custom validators is read by its own keys, whereas
      [in] also finds the members every object inherits.

    [Invariants] defines the conditions under which these readings and the
    browser agree; they are hypotheses of the theorems that need them.
    Theorems about the code come after all definitions. *)

From Stdlib Require Import ZArith Ascii String List Bool Lia.
From stdpp Require Import base option list strings gmap pretty.

Set Warnings "-register-all".

Local Open Scope string_scope.
Local Open Scope Z_scope.

(* ===================================================================== *)
(** ** JavaScript values                                                  *)
(* ===================================================================== *)

Module Js.

(** Exceptions the modelled code can raise. *)
Inductive exn : Type :=
| TypeError
| SyntaxError.

(** Outcome of evaluating an expression that may raise. *)
Inductive result (A : Type) : Type :=
| Ok (a : A)
| Throw (e : exn).
Arguments Ok {A} a.
Arguments Throw {A} e.

(** Numbers.  [parseInt] only ever yields an integer or [NaN], and bounds
    are compared with these, so a number is [NaN] or an integer. A bound
    with a fraction (such as 3.5) and the rounding of an integer beyond
    2^53 to a double are outside this type. *)
Inductive number : Type :=
| NaN
| Num (z : Z).

(** The values that flow through the validators: what [generateValue]
    can return, what a data attribute holds, and what a caller may pass. *)
Inductive JsValue : Type :=
| VUndefined
| VNull
| VBool (b : bool)
| VNumber (n : number)
| VString (s : string)
| VArray (l : list JsValue)
| VFileList (files : list string).

(** [x >= y] and [x <= y] on numbers: false as soon as one side is NaN. *)
Definition num_ge (x y : number) : bool :=
  match x, y with
  | Num a, Num b => b <=? a
  | _, _ => false
  end.

Definition num_le (x y : number) : bool :=
  match x, y with
  | Num a, Num b => a <=? b
  | _, _ => false
  end.

(** ToBoolean. *)
Definition truthy (v : JsValue) : bool :=
  match v with
  | VUndefined | VNull => false
  | VBool b => b
  | VNumber NaN => false
  | VNumber (Num z) => negb (z =? 0)
  | VString s => negb (String.eqb s "")
  | VArray _ | VFileList _ => true
  end.

(** Truthiness of a property that is either missing or a string, as for
    [dataset.controlName]. *)
Definition truthy_attr (o : option string) : bool :=
  match o with
  | Some s => negb (String.eqb s "")
  | None => false
  end.

(** ToString, as used by template literals. An array joins its elements
    with a comma, printing [undefined] and [null] elements as nothing. An
    integer is printed in full; JavaScript switches to the exponent form
    from 10^21 on. *)
Fixpoint ToString (v : JsValue) : string :=
  match v with
  | VUndefined => "undefined"
  | VNull => "null"
  | VBool true => "true"
  | VBool false => "false"
  | VNumber NaN => "NaN"
  | VNumber (Num z) => pretty z
  | VString s => s
  | VArray l =>
      let element x :=
        match x with
        | VUndefined | VNull => ""
        | _ => ToString x
        end in
      (fix join (xs : list JsValue) : string :=
         match xs with
         | [] => ""
         | [x] => element x
         | x :: rest => element x ++ "," ++ join rest
         end) l
  | VFileList _ => "[object FileList]"
  end.

(** White space and line terminators among the code units below 256. *)
Definition is_white_space (c : ascii) : bool :=
  let n := nat_of_ascii c in
  (Nat.eqb n 9 || Nat.eqb n 10 || Nat.eqb n 11 || Nat.eqb n 12
   || Nat.eqb n 13 || Nat.eqb n 32 || Nat.eqb n 160)%bool.

Fixpoint trimStart (s : string) : string :=
  match s with
  | String c rest => if is_white_space c then trimStart rest else s
  | EmptyString => EmptyString
  end.

Definition trimEnd (s : string) : string :=
  String.rev (trimStart (String.rev s)).

(** [String.prototype.trim]. *)
Definition trim (s : string) : string := trimEnd (trimStart s).

(** Value of a digit in the given radix (10 or 16), if it is one. *)
Definition digit_value (radix : Z) (c : ascii) : option Z :=
  let n := Z.of_nat (nat_of_ascii c) in
  let d :=
    if (48 <=? n) && (n <=? 57) then Some (n - 48)
    else if (97 <=? n) && (n <=? 102) then Some (n - 87)
    else if (65 <=? n) && (n <=? 70) then Some (n - 55)
    else None in
  match d with
  | Some k => if k <? radix then Some k else None
  | None => None
  end.

(** Longest prefix of digits, accumulated most significant digit first;
    [None] when the string does not start with a digit. *)
Fixpoint parse_digits (radix : Z) (acc : option Z) (s : string) : option Z :=
  match s with
  | EmptyString => acc
  | String c rest =>
      match digit_value radix c with
      | Some d => parse_digits radix (Some (radix * default 0 acc + d)) rest
      | None => acc
      end
  end.

(** [parseInt(s)] with no radix argument: leading white space is skipped,
    a sign is read, [0x]/[0X] selects radix 16, and the longest prefix of
    digits is the result; with no digit at all the result is [NaN]. *)
Definition parseInt (s : string) : number :=
  let s1 := trimStart s in
  let '(sign, s2) :=
    match s1 with
    | String "-" rest => (-1, rest)
    | String "+" rest => (1, rest)
    | _ => (1, s1)
    end in
  let '(radix, s3) :=
    match s2 with
    | String "0" (String "x" rest) => (16, rest)
    | String "0" (String "X" rest) => (16, rest)
    | _ => (10, s2)
    end in
  match parse_digits radix None s3 with
  | Some z => Num (sign * z)
  | None => NaN
  end.

(** The services of the JavaScript engine that are taken as given:
    regular expressions and the numeric reading of a string. *)
Class Engine : Type := {
  (** [new RegExp(regex).test(value)]; raises on a malformed pattern. *)
  RegExp_test : JsValue -> JsValue -> result bool;
  (** StringToNumber, applied when a string meets a number in [>=], [<=]. *)
  StringToNumber : string -> number
}.

Section Coercions.
Context {engine : Engine}.

(** ToNumber. *)
Definition ToNumber (v : JsValue) : number :=
  match v with
  | VUndefined => NaN
  | VNull => Num 0
  | VBool b => Num (if b then 1 else 0)
  | VNumber n => n
  | VString s => StringToNumber s
  | VArray _ | VFileList _ => StringToNumber (ToString v)
  end.

(** [x >= y] and [x <= y] where the left operand is not a string. *)
Definition js_ge (x y : JsValue) : bool := num_ge (ToNumber x) (ToNumber y).
Definition js_le (x y : JsValue) : bool := num_le (ToNumber x) (ToNumber y).
End Coercions.

(** [v.length]: raises on [undefined] and [null], is [undefined] on the
    other primitives. *)
Definition length_of (v : JsValue) : result JsValue :=
  match v with
  | VUndefined | VNull => Throw TypeError
  | VString s => Ok (VNumber (Num (Z.of_nat (String.length s))))
  | VArray l => Ok (VNumber (Num (Z.of_nat (List.length l))))
  | VFileList fs => Ok (VNumber (Num (Z.of_nat (List.length fs))))
  | VBool _ | VNumber _ => Ok VUndefined
  end.

(** An engine to run the model on examples. It reads a pattern as a plain
    substring to look for, which is what [RegExp] does for a pattern without
    metacharacters, and reads blank strings and signed decimal integers as
    StringToNumber does; every other string is read as [NaN]. *)
Definition literal_test (regex value : JsValue) : result bool :=
  match String.index 0 (ToString regex) (ToString value) with
  | Some _ => Ok true
  | None => Ok false
  end.

Fixpoint all_decimal_digits (s : string) : bool :=
  match s with
  | EmptyString => true
  | String c rest =>
      match digit_value 10 c with
      | Some _ => all_decimal_digits rest
      | None => false
      end
  end.

Definition decimal_StringToNumber (s : string) : number :=
  let t := trim s in
  let '(sign, digits) :=
    match t with
    | String "-" rest => (-1, rest)
    | String "+" rest => (1, rest)
    | _ => (1, t)
    end in
  match t, parse_digits 10 None digits with
  | EmptyString, _ => Num 0
  | _, Some z => if all_decimal_digits digits then Num (sign * z) else NaN
  | _, None => NaN
  end.

Definition literalEngine : Engine :=
  {| RegExp_test := literal_test; StringToNumber := decimal_StringToNumber |}.

End Js.

(* ===================================================================== *)
(** ** src/types/index.ts                                                 *)
(* ===================================================================== *)

Module Types.
Import Js.

(** What a failing validator returns: a message and the validator's own
    fields ([min], [max], [pattern], [value], ...), in the order written. *)
Record ErrorDetail : Type := {
  message : string;
  payload : list (string * JsValue)
}.

(** [error.message = customErrorMessage]. *)
Definition set_message (error : ErrorDetail) (m : string) : ErrorDetail :=
  {| message := m; payload := payload error |}.

(** [(value, attributeValue?) => { message } | undefined]; a validator may
    raise. As its type in the source says, it is a function of its two
    arguments: it keeps no state and does not look at the object it is
    called on. *)
Definition ValidatorFunction : Type :=
  JsValue -> JsValue -> result (option ErrorDetail).

(** [{ validate: { [key: string]: ValidatorFunction } }]; the controller
    tolerates a configuration without [validate]. *)
Record FormNinjaConfig : Type := {
  validate : option (gmap string ValidatorFunction)
}.

Record SetValueConfig : Type := {
  shouldValidate : bool
}.
End Types.

(* ===================================================================== *)
(** ** src/modules/validators.ts                                          *)
(* ===================================================================== *)

Module Validators.
Import Js Types.

(** The character class [[\d.-]]. *)
Definition is_numeric_char (c : ascii) : bool :=
  let n := nat_of_ascii c in
  ((Nat.leb 48 n && Nat.leb n 57) || Ascii.eqb c "." || Ascii.eqb c "-")%bool.

(** [value.replace(/[^\d.-]+/g, "")]. *)
Fixpoint strip_non_numeric (s : string) : string :=
  match s with
  | EmptyString => EmptyString
  | String c rest =>
      if is_numeric_char c then String c (strip_non_numeric rest)
      else strip_non_numeric rest
  end.

(** [static #toNumber(value)]. *)
Definition toNumber (value : JsValue) : number :=
  match value with
  | VString s => parseInt (strip_non_numeric s)
  | VNumber n => n
  | _ => Num 0
  end.

(** [static required(value)]: [value.trim()] exists on strings only. *)
Definition required (value _attributeValue : JsValue)
  : result (option ErrorDetail) :=
  match value with
  | VString s =>
      let status := negb (String.eqb (trim s) "") in
      if status then Ok None
      else Ok (Some {| message :=
                         "This field is required and cannot be left blank.";
                       payload := [] |})
  | _ => Throw TypeError
  end.

(** [static requiredTrue(value)]. *)
Definition requiredTrue (value _attributeValue : JsValue)
  : result (option ErrorDetail) :=
  if truthy value then Ok None
  else Ok (Some {| message := "You must check this box to proceed.";
                   payload := [] |}).

Section WithEngine.
Context {engine : Engine}.

(** [static pattern(value, regex)]. *)
Definition pattern (value regex : JsValue) : result (option ErrorDetail) :=
  match RegExp_test regex value with
  | Throw e => Throw e
  | Ok status =>
      if status then Ok None
      else Ok (Some {| message :=
                         "The input does not match the required format.";
                       payload := [("pattern", regex); ("value", value)] |})
  end.

(** [static min(value, min)]. *)
Definition min (value min : JsValue) : result (option ErrorDetail) :=
  let NUMBER := toNumber value in
  let status := js_ge (VNumber NUMBER) min in
  if status then Ok None
  else Ok (Some {| message :=
                     "The value must be greater than or equal to "
                       ++ ToString min ++ ".";
                   payload := [("min", min); ("value", value)] |}).

(** [static max(value, max)]. *)
Definition max (value max : JsValue) : result (option ErrorDetail) :=
  let NUMBER := toNumber value in
  let status := js_le (VNumber NUMBER) max in
  if status then Ok None
  else Ok (Some {| message :=
                     "The value must be less than or equal to "
                       ++ ToString max ++ ".";
                   payload := [("max", max); ("value", value)] |}).

(** [static minLength(value, minLength)]. *)
Definition minLength (value minLength : JsValue)
  : result (option ErrorDetail) :=
  match length_of value with
  | Throw e => Throw e
  | Ok len =>
      let status := js_ge len minLength in
      if status then Ok None
      else Ok (Some {| message :=
                         "The input must be at least "
                           ++ ToString minLength ++ " characters long.";
                       payload := [("minLength", minLength);
                                   ("value", value)] |})
  end.

(** [static maxLength(value, maxLength)]. *)
Definition maxLength (value maxLength : JsValue)
  : result (option ErrorDetail) :=
  match length_of value with
  | Throw e => Throw e
  | Ok len =>
      let status := js_le len maxLength in
      if status then Ok None
      else Ok (Some {| message :=
                         "The input must not exceed "
                           ++ ToString maxLength ++ " characters.";
                       payload := [("maxLength", maxLength);
                                   ("value", value)] |})
  end.

(** [Validators[name]]: the static methods of the class, by name. *)
Definition static_method (name : string) : option ValidatorFunction :=
  if String.eqb name "required" then Some required
  else if String.eqb name "requiredTrue" then Some requiredTrue
  else if String.eqb name "pattern" then Some pattern
  else if String.eqb name "min" then Some min
  else if String.eqb name "max" then Some max
  else if String.eqb name "minLength" then Some minLength
  else if String.eqb name "maxLength" then Some maxLength
  else None.
End WithEngine.
End Validators.


(* ===================================================================== *)
(** ** The DOM the library works on                                       *)
(* ===================================================================== *)

Module Dom.
Import Js.

(** [element.dataset]: the [data-*] attributes in attribute order, keyed by
    their camel-cased names. *)
Definition DOMStringMap : Type := list (string * string).

(** [dataset[key]]. *)
Fixpoint dataset_get (d : DOMStringMap) (key : string) : option string :=
  match d with
  | [] => None
  | (k, v) :: rest => if String.eqb k key then Some v else dataset_get rest key
  end.

(** [dataset[key] = v]: an existing attribute keeps its place, a new one
    comes last. *)
Fixpoint dataset_set (d : DOMStringMap) (key v : string) : DOMStringMap :=
  match d with
  | [] => [(key, v)]
  | (k, w) :: rest =>
      if String.eqb k key then (k, v) :: rest
      else (k, w) :: dataset_set rest key v
  end.

(** The property names a [for ... in] loop over the dataset visits. *)
Definition dataset_keys (d : DOMStringMap) : list string := map fst d.

(** What [window.getComputedStyle] reports and [isVisible] looks at. *)
Record CSSStyleDeclaration : Type := {
  display : string;
  visibility : string;
  opacity : string
}.

(** A descendant of the form: a form control, or an element of the
    presentation markup. Every property is a plain slot: [value] is
    what reading [element.value] gives and what writing it stores,
    [valueAttribute] is [getAttribute("value")], [checked] says whether the
    element matches [:checked], [offsetParent] whether that property is
    non-null, [formGroup] and [errorMessage] are the [form-group] and
    [error-message] attributes of the presentation markup, [innerHTML] is
    the text of an element that has no element children.

    In the browser [value] is not a plain slot: what is assigned is
    sanitised according to [type], so that a range or a color input never
    reads as the empty string, a single-line text control drops line breaks,
    an email or url control also trims, and a checkbox or a radio button
    stores the assignment in its [value] attribute.
    [Invariants.holds_blank] and [Invariants.stores_text] delimit the
    controls and strings for which writing and reading agree with the
    slot. *)
Record HTMLElement : Type := {
  type : string;
  name : option string;
  dataset : DOMStringMap;
  value : string;
  valueAttribute : option string;
  checked : bool;
  disabled : bool;
  files : JsValue;
  style : CSSStyleDeclaration;
  offsetParent : bool;
  classList : list string;
  formGroup : option string;
  errorMessage : option string;
  innerHTML : string
}.

(** [element.value = v], as a write to the slot. *)
Definition set_value (v : string) (e : HTMLElement) : HTMLElement :=
  {| type := type e; name := name e; dataset := dataset e; value := v;
     valueAttribute := valueAttribute e; checked := checked e;
     disabled := disabled e; files := files e; style := style e;
     offsetParent := offsetParent e; classList := classList e;
     formGroup := formGroup e; errorMessage := errorMessage e;
     innerHTML := innerHTML e |}.

Definition set_dataset (d : DOMStringMap) (e : HTMLElement) : HTMLElement :=
  {| type := type e; name := name e; dataset := d; value := value e;
     valueAttribute := valueAttribute e; checked := checked e;
     disabled := disabled e; files := files e; style := style e;
     offsetParent := offsetParent e; classList := classList e;
     formGroup := formGroup e; errorMessage := errorMessage e;
     innerHTML := innerHTML e |}.

Definition set_classList (c : list string) (e : HTMLElement) : HTMLElement :=
  {| type := type e; name := name e; dataset := dataset e; value := value e;
     valueAttribute := valueAttribute e; checked := checked e;
     disabled := disabled e; files := files e; style := style e;
     offsetParent := offsetParent e; classList := c;
     formGroup := formGroup e; errorMessage := errorMessage e;
     innerHTML := innerHTML e |}.

(** [element.innerHTML = h] for an element holding text and a string [h]
    without markup. The browser parses [h] and replaces the children of the
    element, which can add descendants to the form or remove them; that is
    outside the flat list of elements. *)
Definition set_innerHTML (h : string) (e : HTMLElement) : HTMLElement :=
  {| type := type e; name := name e; dataset := dataset e; value := value e;
     valueAttribute := valueAttribute e; checked := checked e;
     disabled := disabled e; files := files e; style := style e;
     offsetParent := offsetParent e; classList := classList e;
     formGroup := formGroup e; errorMessage := errorMessage e;
     innerHTML := h |}.

(** [classList.contains], [classList.add], [classList.remove]. *)
Definition classList_contains (c : string) (e : HTMLElement) : bool :=
  existsb (String.eqb c) (classList e).

Definition classList_add (c : string) (e : HTMLElement) : HTMLElement :=
  if classList_contains c e then e
  else set_classList (classList e ++ [c]) e.

Definition classList_remove (c : string) (e : HTMLElement) : HTMLElement :=
  set_classList (List.filter (fun x => negb (String.eqb c x)) (classList e)) e.

(** The bound form, as the list of its descendants in document order.
    An element is referred to by its position in that list. *)
Abbreviation HTMLFormElement := (list HTMLElement) (only parsing).
Abbreviation handle := nat (only parsing).

Definition selector : Type := HTMLElement -> bool.

Definition matches_at (sel : selector) (form : HTMLFormElement) (i : handle)
  : bool :=
  match form !! i with
  | Some e => sel e
  | None => false
  end.

(** [form.querySelectorAll(sel)]: the matching descendants in document
    order. *)
Definition querySelectorAll (sel : selector) (form : HTMLFormElement)
  : list handle :=
  List.filter (matches_at sel form) (seq 0 (List.length form)).

(** [form.querySelector(sel)]: the first match, if any. *)
Definition querySelector (sel : selector) (form : HTMLFormElement)
  : option handle :=
  head (querySelectorAll sel form).

Definition attr_is (a : option string) (v : string) : bool :=
  match a with
  | Some w => String.eqb w v
  | None => false
  end.

(** The selectors of the code. Those with a name in them are built by
    writing the name into the selector text, between double quotes in
    [getField], between single quotes in error.ts and without quotes in
    value.ts. Each is read here as the test "the attribute is this name",
    which is what the selector means when the name is
    [Invariants.quotable] (between quotes) or an [Invariants.identifier]
    (without quotes). For other names, such as one with a quote in it, or
    with a dot or a space where there are no quotes, the text is not a
    selector and the query raises a SyntaxError; the tests below are total
    and do not show that. *)

(** [[data-control-name]] *)
Definition sel_has_control_name : selector :=
  fun e => match dataset_get (dataset e) "controlName" with
           | Some _ => true
           | None => false
           end.

(** [[data-control-name="controlName"]], also written
    [[data-control-name='controlName']] and [[data-control-name=controlName]]. *)
Definition sel_control_name (controlName : string) : selector :=
  fun e => attr_is (dataset_get (dataset e) "controlName") controlName.

(** [[name=controlName]:checked] *)
Definition sel_name_checked (controlName : string) : selector :=
  fun e => attr_is (name e) controlName && checked e.

(** [[form-group='controlName']] *)
Definition sel_form_group (controlName : string) : selector :=
  fun e => attr_is (formGroup e) controlName.

(** [[error-message='controlName']] *)
Definition sel_error_message (controlName : string) : selector :=
  fun e => attr_is (errorMessage e) controlName.
End Dom.

(* ===================================================================== *)
(** ** src/constants                                                      *)
(* ===================================================================== *)

Module Constants.
(** Modelled from the spec: the constant [BUILT_IN_VALIDATORS] of
    src/constants/index.js, which is not among the sources. The spec names
    the fixed set of built-in validators as required, requiredTrue, pattern,
    min, max, minLength, maxLength. *)
Definition BUILT_IN_VALIDATORS : list string :=
  ["required"; "requiredTrue"; "pattern"; "min"; "max"; "minLength";
   "maxLength"].
End Constants.

(* ===================================================================== *)
(** ** src/services: value, error and helper                              *)
(* ===================================================================== *)

Module Services.
Import Js Types Dom Constants.

(** [a || b] on strings. *)
Definition or_else (a b : string) : string :=
  if String.eqb a "" then b else a.

Definition elements_at (form : HTMLFormElement) (hs : list handle)
  : list HTMLElement :=
  omap (fun i => form !! i) hs.

(** *** value.ts *)

(** [getRadioValue({ form, controlName })]. *)
Definition getRadioValue (form : HTMLFormElement) (controlName : string)
  : JsValue :=
  let selectedRadioInput :=
    querySelector (sel_name_checked controlName) form ≫= (fun i => form !! i) in
  VString (or_else (from_option value "" selectedRadioInput) "").

(** [getCheckboxValue({ form, controlName })]. *)
Definition getCheckboxValue (form : HTMLFormElement) (controlName : string)
  : JsValue :=
  let selectedCheckboxInputs :=
    elements_at form (querySelectorAll (sel_name_checked controlName) form) in
  if Nat.eqb (List.length selectedCheckboxInputs) 0 then VBool false
  else
    let values :=
      map (fun i => if truthy_attr (valueAttribute i)
                    then VString (value i) else VBool true)
          selectedCheckboxInputs in
    if negb (Nat.eqb (List.length values) 0) then VArray values
    else VBool true.

(** [getFiles({ form, controlName })]: reading [files] of no element
    raises. *)
Definition getFiles (form : HTMLFormElement) (controlName : string)
  : result JsValue :=
  match querySelector (sel_control_name controlName) form
        ≫= (fun i => form !! i) with
  | Some fileInput => Ok (files fileInput)
  | None => Throw TypeError
  end.

(** [generateValue({ field, form })]. The radio, checkbox and file
    branches query with the control name written without quotes; they raise
    for a name that is not an identifier, which the total selectors do not
    show (see [Invariants.safely_named]). *)
Definition generateValue (field : HTMLElement) (form : HTMLFormElement)
  : result JsValue :=
  let controlName := dataset_get (dataset field) "controlName" in
  if negb (truthy_attr controlName) then Ok VUndefined
  else
    let controlName := default "" controlName in
    if String.eqb (type field) "radio" then
      Ok (getRadioValue form controlName)
    else if String.eqb (type field) "checkbox" then
      Ok (getCheckboxValue form controlName)
    else if String.eqb (type field) "file" then
      getFiles form controlName
    else
      Ok (VString
            (or_else (value field)
               (or_else (default "" (dataset_get (dataset field) "value"))
                  ""))).

(** *** error.ts *)

(** A record of one validator call, kept so that statements can speak of
    which validators a resolution ran. *)
Inductive provenance : Type := BuiltIn | Custom.

Record Invocation : Type := {
  origin : provenance;
  rule : string;
  argument : JsValue;
  parameter : JsValue
}.

(** A property of the dataset read as a value. *)
Definition attribute_value (dataset : DOMStringMap) (key : string) : JsValue :=
  match dataset_get dataset key with
  | Some s => VString s
  | None => VUndefined
  end.

(** The block both branches of [generateError] share: a custom message,
    when truthy, replaces [error.message]. *)
Definition with_custom_message (dataset : DOMStringMap) (validator : string)
    (error : ErrorDetail) : ErrorDetail :=
  let customErrorMessage := dataset_get dataset (validator ++ "Message") in
  if truthy_attr customErrorMessage
  then set_message error (default "" customErrorMessage)
  else error.

Section WithEngine.
Context {engine : Engine}.

(** The body of [for (const validator in dataset)], over the property
    names still to visit. The first component lists the validators that
    were called, in call order.

    [validator in validations] is read as "[validator] is an own key of
    the registry". In JavaScript [in] is also true of the members a plain
    object inherits ([toString], [valueOf], [hasOwnProperty] and the like):
    for an attribute such as [data-value-of] the code then calls the
    inherited member as if it were a validator, and what it returns may be
    the registry itself, into which the message override is written. That
    behaviour has no counterpart here; [Invariants.own_decides] tells the
    names for which the own keys decide. *)
Fixpoint generateError_from (dataset : DOMStringMap)
    (validations : gmap string ValidatorFunction) (value : JsValue)
    (names : list string)
  : list Invocation * result (option ErrorDetail) :=
  match names with
  | [] => ([], Ok None)
  | validator :: rest =>
      let attributeValue := attribute_value dataset validator in
      if existsb (String.eqb validator) BUILT_IN_VALIDATORS then
        match Validators.static_method validator with
        | None => ([], Throw TypeError)
        | Some f =>
            let call := {| origin := BuiltIn; rule := validator;
                           argument := value;
                           parameter := attributeValue |} in
            match f value attributeValue with
            | Throw e => ([call], Throw e)
            | Ok (Some error) =>
                ([call], Ok (Some (with_custom_message dataset validator error)))
            | Ok None =>
                let '(calls, r) :=
                  generateError_from dataset validations value rest in
                (call :: calls, r)
            end
        end
      else
        match validations !! validator with
        | Some f =>
            let call := {| origin := Custom; rule := validator;
                           argument := value;
                           parameter := attributeValue |} in
            match f value attributeValue with
            | Throw e => ([call], Throw e)
            | Ok (Some error) =>
                ([call], Ok (Some (with_custom_message dataset validator error)))
            | Ok None =>
                let '(calls, r) :=
                  generateError_from dataset validations value rest in
                (call :: calls, r)
            end
        | None => generateError_from dataset validations value rest
        end
  end.

(** [generateError({ dataset, validations, value })]. *)
Definition generateError (dataset : DOMStringMap)
    (validations : gmap string ValidatorFunction) (value : JsValue)
  : list Invocation * result (option ErrorDetail) :=
  generateError_from dataset validations value (dataset_keys dataset).
End WithEngine.

Definition on_match (found : option handle) (f : HTMLElement -> HTMLElement)
    (form : HTMLFormElement) : HTMLFormElement :=
  match found with
  | Some i => alter f i form
  | None => form
  end.

(** [addInvalidClass({ controlName, form })]. *)
Definition addInvalidClass (controlName : string) (form : HTMLFormElement)
  : HTMLFormElement :=
  let formGroupDOM := querySelector (sel_form_group controlName) form in
  let fieldControlEL := querySelector (sel_control_name controlName) form in
  on_match fieldControlEL (classList_add "rf-invalid")
    (on_match formGroupDOM (classList_add "rf-invalid") form).

(** [removeInvalidClass({ controlName, form })]. *)
Definition removeInvalidClass (controlName : string) (form : HTMLFormElement)
  : HTMLFormElement :=
  let formGroupDOM := querySelector (sel_form_group controlName) form in
  let fieldControlEL := querySelector (sel_control_name controlName) form in
  on_match fieldControlEL (classList_remove "rf-invalid")
    (on_match formGroupDOM (classList_remove "rf-invalid") form).

(** [showError({ message, controlName, form })], for a control name that
    can be written between single quotes ([Invariants.quotable]) and a
    message without markup. For another name the first query raises, the
    [catch] of the code swallows the exception and nothing is marked or
    written; with the selectors read as searches nothing raises here, and
    the [try]/[catch] has no counterpart. *)
Definition showError (message controlName : string) (form : HTMLFormElement)
  : HTMLFormElement :=
  let form := addInvalidClass controlName form in
  let errorMessagePara := querySelector (sel_error_message controlName) form in
  on_match errorMessagePara (set_innerHTML message) form.

(** [hideError({ controlName, form })], for a control name that can be
    written between single quotes ([Invariants.quotable]). For another name
    the first query raises, the [catch] of the code swallows the exception
    and nothing is cleared. *)
Definition hideError (controlName : string) (form : HTMLFormElement)
  : HTMLFormElement :=
  let form := removeInvalidClass controlName form in
  let errorMessagePara := querySelector (sel_error_message controlName) form in
  on_match errorMessagePara (set_innerHTML "") form.

(** *** helper.ts *)

(** [isVisible(element)], for an element of the document. *)
Definition isVisible (element : HTMLElement) : bool :=
  let style := style element in
  negb (String.eqb (display style) "none")
  && negb (String.eqb (visibility style) "hidden")
  && negb (String.eqb (opacity style) "0")
  && offsetParent element.
End Services.

(* ===================================================================== *)
(** ** src/modules/form-ninja.ts: class FormNinja                         *)
(* ===================================================================== *)

Module Controller.
Import Js Types Dom Services.

(** The instance: the bound form and the custom validators. The [errors]
    property of the class is initialised to an empty object and never read
    or written again, so it is left out. *)
Record FormNinja : Type := {
  form : HTMLFormElement;
  validations : gmap string ValidatorFunction
}.

(** A method body: it reads and updates the instance, calls validators
    (listed in call order) and returns or raises. What was changed before
    an exception stays changed. *)
Definition M (A : Type) : Type :=
  FormNinja -> FormNinja * list Invocation * result A.

Definition ret {A} (a : A) : M A := fun this => (this, [], Ok a).

Definition bind {A B} (m : M A) (k : A -> M B) : M B :=
  fun this =>
    match m this with
    | (this1, calls1, Ok a) =>
        let '(this2, calls2, r) := k a this1 in
        (this2, (calls1 ++ calls2)%list, r)
    | (this1, calls1, Throw e) => (this1, calls1, Throw e)
    end.

Declare Scope method_scope.
Delimit Scope method_scope with method.
Notation "x <- m ;; k" := (bind m (fun x => k))
  (at level 100, m at next level, right associativity) : method_scope.
Notation "m ;;; k" := (bind m (fun _ => k))
  (at level 100, right associativity) : method_scope.
Local Open Scope method_scope.

(** [this.form] and [this.validations]. *)
Definition this_form : M HTMLFormElement := fun this => (this, [], Ok (form this)).
Definition this_validations : M (gmap string ValidatorFunction) :=
  fun this => (this, [], Ok (validations this)).

(** A change made to the elements of the form. *)
Definition mutate (f : HTMLFormElement -> HTMLFormElement) : M unit :=
  fun this =>
    ({| form := f (form this); validations := validations this |}, [], Ok tt).

(** The outcome of a service that may raise and calls validators. *)
Definition perform {A} (r : list Invocation * result A) : M A :=
  fun this => (this, fst r, snd r).

(** The element behind a handle; a handle always comes from a query on the
    form, so the failing case is never taken by the methods below. *)
Definition element (field : handle) : M HTMLElement :=
  fun this =>
    match form this !! field with
    | Some e => (this, [], Ok e)
    | None => (this, [], Throw TypeError)
    end.

(** [list.forEach(f)] and [for ... of]/[for ... in] with a body [f]. *)
Fixpoint forEach {A} (f : A -> M unit) (l : list A) : M unit :=
  match l with
  | [] => ret tt
  | x :: rest => f x ;;; forEach f rest
  end.

(** [constructor(query, config)] / [initialize(query, config)], where
    [root] is what [document.querySelector(query)] finds: the descendants of
    the form when the selector resolves to an HTML element. *)
Definition initialize (root : option HTMLFormElement)
    (config : option FormNinjaConfig) : result FormNinja :=
  match root with
  | None => Throw TypeError
  | Some FORM_ELEMENT =>
      Ok {| form := FORM_ELEMENT;
            validations :=
              match config with
              | Some c => default ∅ (validate c)
              | None => ∅
              end |}
  end.

(** [get fields()]. *)
Definition fields : M (list handle) :=
  f <- this_form ;; ret (querySelectorAll sel_has_control_name f).

(** [getField(controlName)], for a name that can be written between double
    quotes ([Invariants.quotable]); for a name with a double quote in it the
    query of the code raises a SyntaxError. *)
Definition getField (controlName : string) : M (option handle) :=
  f <- this_form ;; ret (querySelector (sel_control_name controlName) f).

Section WithEngine.
Context {engine : Engine}.

(** [validateField(field)]. *)
Definition validateField (field : handle) : M unit :=
  el <- element field ;;
  let dataset := dataset el in
  f <- this_form ;;
  value <- perform ([], generateValue el f) ;;
  let controlName := dataset_get dataset "controlName" in
  let isFieldDisabledOrHidden :=
    disabled el
    || attr_is (dataset_get dataset "disabled") "true"
    || negb (isVisible el) in
  if isFieldDisabledOrHidden && truthy_attr controlName then
    mutate (hideError (default "" controlName))
  else
    vs <- this_validations ;;
    error <- perform (generateError dataset vs value) ;;
    if negb (truthy_attr controlName) then ret tt
    else
      match error with
      | Some error =>
          mutate (showError (message error) (default "" controlName))
      | None => mutate (hideError (default "" controlName))
      end.

(** [validate()]. *)
Definition validate : M unit :=
  fs <- fields ;; forEach validateField fs.

(** [trigger(controlName = null)]. *)
Definition trigger (controlName : option string) : M unit :=
  if truthy_attr controlName then
    field <- getField (default "" controlName) ;;
    match field with
    | None => ret tt
    | Some field => validateField field
    end
  else validate.

(** [setValue(name, value, config)]; reading [shouldValidate] of a
    missing [config] raises. *)
Definition setValue (name value : string) (config : option SetValueConfig)
  : M unit :=
  field <- getField name ;;
  match field with
  | None => ret tt
  | Some field =>
      mutate (alter (set_value value) field) ;;;
      mutate (alter (fun e => set_dataset (dataset_set (dataset e) "value" value) e)
                field) ;;;
      match config with
      | None => perform ([], Throw TypeError)
      | Some config =>
          if shouldValidate config then validateField field else ret tt
      end
  end.

(** [update(values, config)]. *)
Definition update (values : list (string * string))
    (config : option SetValueConfig) : M unit :=
  forEach (fun '(controlName, value) => setValue controlName value config)
    values.
End WithEngine.

(** [resetField(control)], [control] being a name or an element. *)
Definition resetField (control : string + handle) : M unit :=
  field <- match control with
           | inl controlName => getField controlName
           | inr el => ret (Some el)
           end ;;
  match field with
  | None => ret tt
  | Some field =>
      mutate (alter (set_value "") field) ;;;
      mutate (alter (fun e => set_dataset (dataset_set (dataset e) "value" "") e)
                field) ;;;
      el <- element field ;;
      let controlName := dataset_get (dataset el) "controlName" in
      if truthy_attr controlName
      then mutate (hideError (default "" controlName))
      else ret tt
  end.

(** [reset()]. *)
Definition reset : M unit :=
  fs <- fields ;; forEach (fun field => resetField (inr field)) fs.

(** [values[key] = v] on the object [getValues] builds. *)
Fixpoint assign (values : list (string * JsValue)) (key : string) (v : JsValue)
  : list (string * JsValue) :=
  match values with
  | [] => [(key, v)]
  | (k, w) :: rest =>
      if String.eqb k key then (k, v) :: rest else (k, w) :: assign rest key v
  end.

(** [getValues(controlName = null)]: one value, or the object of all. *)
Definition getValues (controlName : option string)
  : M (JsValue + list (string * JsValue)) :=
  if truthy_attr controlName then
    field <- getField (default "" controlName) ;;
    match field with
    | None => ret (inl VUndefined)
    | Some field =>
        el <- element field ;;
        f <- this_form ;;
        v <- perform ([], generateValue el f) ;;
        ret (inl v)
    end
  else
    fs <- fields ;;
    f <- this_form ;;
    (fix each (fs : list handle) (values : list (string * JsValue))
       : M (JsValue + list (string * JsValue)) :=
       match fs with
       | [] => ret (inr values)
       | field :: rest =>
           el <- element field ;;
           let controlName := dataset_get (dataset el) "controlName" in
           if truthy_attr controlName then
             v <- perform ([], generateValue el f) ;;
             each rest (assign values (default "" controlName) v)
           else each rest values
       end) fs [].

(** [get isValid()]. *)
Definition isValid : M bool :=
  fs <- fields ;;
  f <- this_form ;;
  ret (negb (existsb (classList_contains "rf-invalid") (elements_at f fs))).
End Controller.

(* ===================================================================== *)
(** ** Sample markup                                                      *)
(* ===================================================================== *)

Module Samples.
Import Js Types Dom Services Controller.

Definition shown : CSSStyleDeclaration :=
  {| display := "block"; visibility := "visible"; opacity := "1" |}.

(** [<input type=... name=... data-...>], enabled, laid out, unchecked,
    with an empty value and no class. *)
Definition input (type : string) (name : option string)
    (dataset : DOMStringMap) : HTMLElement :=
  {| type := type; name := name; dataset := dataset; value := "";
     valueAttribute := None; checked := false; disabled := false;
     files := VUndefined; style := shown; offsetParent := true;
     classList := []; formGroup := None; errorMessage := None;
     innerHTML := "" |}.

Definition set_checked (b : bool) (e : HTMLElement) : HTMLElement :=
  {| type := type e; name := name e; dataset := dataset e; value := value e;
     valueAttribute := valueAttribute e; checked := b;
     disabled := disabled e; files := files e; style := style e;
     offsetParent := offsetParent e; classList := classList e;
     formGroup := formGroup e; errorMessage := errorMessage e;
     innerHTML := innerHTML e |}.

Definition set_disabled (b : bool) (e : HTMLElement) : HTMLElement :=
  {| type := type e; name := name e; dataset := dataset e; value := value e;
     valueAttribute := valueAttribute e; checked := checked e;
     disabled := b; files := files e; style := style e;
     offsetParent := offsetParent e; classList := classList e;
     formGroup := formGroup e; errorMessage := errorMessage e;
     innerHTML := innerHTML e |}.

(** [<input value="v">]: the attribute and the property agree. *)
Definition with_value (v : string) (e : HTMLElement) : HTMLElement :=
  {| type := type e; name := name e; dataset := dataset e; value := v;
     valueAttribute := Some v; checked := checked e;
     disabled := disabled e; files := files e; style := style e;
     offsetParent := offsetParent e; classList := classList e;
     formGroup := formGroup e; errorMessage := errorMessage e;
     innerHTML := innerHTML e |}.

(** [<p error-message="controlName">text</p>]. *)
Definition error_paragraph (controlName text : string) : HTMLElement :=
  {| type := ""; name := None; dataset := []; value := "";
     valueAttribute := None; checked := false; disabled := false;
     files := VUndefined; style := shown; offsetParent := true;
     classList := []; formGroup := None; errorMessage := Some controlName;
     innerHTML := text |}.

(** A controller bound to [form] with no custom validator. *)
Definition bound (form : HTMLFormElement) : FormNinja :=
  {| form := form; validations := ∅ |}.

(** [<input type="checkbox" name="agree" data-control-name="agree" checked>]:
    one checked option without a [value] attribute. *)
Definition agree_checked : HTMLFormElement :=
  [set_checked true (input "checkbox" (Some "agree") [("controlName", "agree")])].

(** The same option, unchecked and declared [data-required]. *)
Definition agree_required : HTMLFormElement :=
  [input "checkbox" (Some "agree") [("controlName", "agree"); ("required", "")]].

(** Two checked options of one group, each with a [value] attribute. *)
Definition colours_checked : HTMLFormElement :=
  [set_checked true
     (with_value "red" (input "checkbox" (Some "colour") [("controlName", "colour")]));
   set_checked true (with_value "blue" (input "checkbox" (Some "colour") []))].

(** [<input type="text" data-control-name="age" data-required>] and its
    error paragraph. *)
Definition age_required : HTMLFormElement :=
  [input "text" (Some "age") [("controlName", "age"); ("required", "")];
   error_paragraph "age" ""].

(** [<input type="text" data-control-name="" data-min="3">]: a member of
    the field group without a control name. *)
Definition nameless_min : HTMLElement :=
  input "text" None [("controlName", ""); ("min", "3")].

(** [<input type="text" data-control-name="" data-required>]. *)
Definition nameless_required : HTMLElement :=
  input "text" None [("controlName", ""); ("required", "")].


(** A custom validator that accepts every value, and one that rejects every
    value. *)
Definition accept_all : ValidatorFunction := fun _ _ => Ok None.
Definition reject_all : ValidatorFunction :=
  fun value _ => Ok (Some {| message := "Rejected."; payload := [("value", value)] |}).

(** [data-control-name="age" data-is-short data-min="3"
    data-min-message="too small" data-max="1"]. *)
Definition age_rules : DOMStringMap :=
  [("controlName", "age"); ("isShort", ""); ("min", "3");
   ("minMessage", "too small"); ("max", "1")].

(** [data-required data-required-message=""]: an override that is declared
    and empty. *)
Definition required_empty_override : DOMStringMap :=
  [("required", ""); ("requiredMessage", "")].

(** A field with a typed value that failed validation: it carries the
    marker and its error paragraph shows the message. *)
Definition age_marked : HTMLFormElement :=
  [classList_add "rf-invalid"
     (set_value "ab"
        (input "text" (Some "age") [("controlName", "age"); ("minLength", "3")]));
   error_paragraph "age" "The input must be at least 3 characters long."].
End Samples.

(* ===================================================================== *)
(** ** Vocabulary of the statements                                       *)
(* ===================================================================== *)

Module Statements.
Import Js Types Dom Constants Services Controller.

(** The instance, the validator calls and the outcome of running a method. *)
Definition after {A} (r : FormNinja * list Invocation * result A) : FormNinja :=
  r.1.1.
Definition calls_of {A} (r : FormNinja * list Invocation * result A)
  : list Invocation := r.1.2.
Definition outcome_of {A} (r : FormNinja * list Invocation * result A)
  : result A := r.2.

Definition is_builtin (name : string) : bool :=
  existsb (String.eqb name) BUILT_IN_VALIDATORS.

Definition is_string (v : JsValue) : bool :=
  match v with
  | VString _ => true
  | _ => false
  end.

(** A field lacks a control-name identity when [dataset.controlName] is
    falsy: the attribute is missing or empty. *)
Definition lacks_control_name (e : HTMLElement) : bool :=
  negb (truthy_attr (dataset_get (dataset e) "controlName")).

(** The condition [isFieldDisabledOrHidden] of [validateField]. *)
Definition disabled_or_hidden (e : HTMLElement) : bool :=
  disabled e
  || attr_is (dataset_get (dataset e) "disabled") "true"
  || negb (isVisible e).

Section WithEngine.
Context {engine : Engine}.

(** The validator a declared name stands for in the merged registry:
    a built-in one, else a custom one, else none. *)
Definition registry_lookup (validations : gmap string ValidatorFunction)
    (name : string) : option (provenance * ValidatorFunction) :=
  if is_builtin name
  then (fun f => (BuiltIn, f)) <$> Validators.static_method name
  else (fun f => (Custom, f)) <$> validations !! name.

(** What evaluating the rule [name] of a dataset gives: nothing when
    [name] is not a rule, else the call made and its outcome. *)
Definition rule_outcome (dataset : DOMStringMap)
    (validations : gmap string ValidatorFunction) (value : JsValue)
    (name : string)
  : option (Invocation * result (option ErrorDetail)) :=
  (fun '(o, f) =>
     ({| origin := o; rule := name; argument := value;
         parameter := attribute_value dataset name |},
      f value (attribute_value dataset name)))
    <$> registry_lookup validations name.

(** The rule [name] does not fail: it is not a rule, or its validator
    returns nothing. *)
Definition passes (dataset : DOMStringMap)
    (validations : gmap string ValidatorFunction) (value : JsValue)
    (name : string) : bool :=
  match rule_outcome dataset validations value name with
  | None | Some (_, Ok None) => true
  | Some (_, _) => false
  end.

(** The calls made for a run of names. *)
Definition calls_for (dataset : DOMStringMap)
    (validations : gmap string ValidatorFunction) (value : JsValue)
    (names : list string) : list Invocation :=
  omap (fun name => fst <$> rule_outcome dataset validations value name)
    names.
End WithEngine.

Definition unmarked (e : HTMLElement) : Prop :=
  classList_contains "rf-invalid" e = false.

Definition value_cleared (e : HTMLElement) : Prop :=
  value e = "" ∧ dataset_get (dataset e) "value" = Some "".

Definition text_cleared (e : HTMLElement) : Prop := innerHTML e = "".

(** The element a query finds, if it finds one, satisfies [P]. *)
Definition found (sel : selector) (form : HTMLFormElement)
    (P : HTMLElement -> Prop) : Prop :=
  ∀ j, querySelector sel form = Some j → ∃ e, form !! j = Some e ∧ P e.

(** [e'] is [e] after some of its value, staged value, classes or text
    were cleared: the attributes queries look at are the same, and what was
    cleared in [e] is cleared in [e']. *)
Record cleared_more (e e' : HTMLElement) : Prop := {
  cm_control :
    dataset_get (dataset e') "controlName" = dataset_get (dataset e) "controlName";
  cm_group : formGroup e' = formGroup e;
  cm_error : errorMessage e' = errorMessage e;
  cm_value : value_cleared e → value_cleared e';
  cm_class : unmarked e → unmarked e';
  cm_text : text_cleared e → text_cleared e'
}.

(** The same, element by element, for the whole form. *)
Definition cleared_later (form form' : HTMLFormElement) : Prop :=
  Forall2 cleared_more form form'.

(** A selector that only looks at attributes clearing leaves alone. *)
Definition stable (sel : selector) : Prop :=
  ∀ e e', cleared_more e e' → sel e' = sel e.

(** A property that clearing keeps. *)
Definition kept (P : HTMLElement -> Prop) : Prop :=
  ∀ e e', cleared_more e e' → P e → P e'.

(** What [resetField] achieves for one field: its value and staged value are
    empty and, when it has a control name, the field, the form group and the
    error paragraph that name resolves to carry no marker and no text. *)
Definition field_reset (form : HTMLFormElement) (field : handle) : Prop :=
  ∃ el, form !! field = Some el
    ∧ value_cleared el
    ∧ ∀ controlName,
        dataset_get (dataset el) "controlName" = Some controlName →
        controlName ≠ "" →
        found (sel_control_name controlName) form unmarked
        ∧ found (sel_form_group controlName) form unmarked
        ∧ found (sel_error_message controlName) form text_cleared.
End Statements.

(* ===================================================================== *)
(** ** Where the embedding and the browser agree, and further vocabulary  *)
(* ===================================================================== *)

Module Invariants.
Import Js Types Dom Constants Services Controller Statements.

(** The members a plain object inherits from [Object.prototype]
    (ECMAScript, Annex B included). The test [name in validations] of
    [generateError] is true for them as well as for the own keys of the
    registry, and the loop then calls the inherited member as if it were a
    validator. The embedding reads the registry by its own keys only. *)
Definition OBJECT_PROTOTYPE_MEMBERS : list string :=
  ["constructor"; "hasOwnProperty"; "isPrototypeOf"; "propertyIsEnumerable";
   "toLocaleString"; "toString"; "valueOf"; "__proto__"; "__defineGetter__";
   "__defineSetter__"; "__lookupGetter__"; "__lookupSetter__"].

Definition inherited (name : string) : bool :=
  existsb (String.eqb name) OBJECT_PROTOTYPE_MEMBERS.

(** The own keys decide what the loop does with [name]: it is a built-in
    name (tested first), a key of the registry, or no inherited member. *)
Definition own_decides (validations : gmap string ValidatorFunction)
    (name : string) : bool :=
  is_builtin name
  || match validations !! name with
     | Some _ => true
     | None => false
     end
  || negb (inherited name).

Fixpoint all_chars (p : ascii -> bool) (s : string) : bool :=
  match s with
  | EmptyString => true
  | String c rest => p c && all_chars p rest
  end.

(** A printable ASCII character other than the two quotes and the
    backslash. *)
Definition quotable_char (c : ascii) : bool :=
  let n := nat_of_ascii c in
  Nat.leb 32 n && Nat.ltb n 127
  && negb (Nat.eqb n 34) && negb (Nat.eqb n 39) && negb (Nat.eqb n 92).

(** A name that can be written between quotes in an attribute selector and
    stands for itself there: [[data-control-name="name"]], [[form-group='name']]
    and [[error-message='name']] are then well-formed selectors for the
    elements whose attribute is [name]. For other names the selector may be
    malformed, and [querySelector] raises. *)
Definition quotable (name : string) : bool := all_chars quotable_char name.

Definition name_start_char (c : ascii) : bool :=
  let n := nat_of_ascii c in
  (Nat.leb 65 n && Nat.leb n 90) || (Nat.leb 97 n && Nat.leb n 122)
  || Nat.eqb n 95.

Definition name_char (c : ascii) : bool :=
  let n := nat_of_ascii c in
  name_start_char c || (Nat.leb 48 n && Nat.leb n 57) || Nat.eqb n 45.

(** A name that is an identifier: a letter or an underscore, then letters,
    digits, underscores and hyphens. Such a name can also be written without
    quotes, as in [[name=controlName]:checked] and
    [[data-control-name=controlName]]. *)
Definition identifier (name : string) : bool :=
  match name with
  | EmptyString => false
  | String c rest => name_start_char c && all_chars name_char rest
  end.

(** The element has no control name, or one that is an identifier. *)
Definition safely_named (e : HTMLElement) : bool :=
  match dataset_get (dataset e) "controlName" with
  | Some n => String.eqb n "" || identifier n
  | None => true
  end.


(** A control that can hold the empty string. A range input and a color
    input cannot: assigned the empty string they read as their default. *)
Definition holds_blank (e : HTMLElement) : bool :=
  negb (String.eqb (type e) "range") && negb (String.eqb (type e) "color").

(** Neither a radio button, nor a checkbox, nor a file input. *)
Definition text_like (e : HTMLElement) : bool :=
  negb (String.eqb (type e) "radio")
  && negb (String.eqb (type e) "checkbox")
  && negb (String.eqb (type e) "file").

(** A control whose [value], once assigned a string without line breaks,
    reads as that string. *)
Definition stores_text (e : HTMLElement) : bool :=
  existsb (String.eqb (type e))
    ["text"; "search"; "tel"; "password"; "hidden"; "textarea"].

Definition single_line (s : string) : bool :=
  all_chars (fun c => negb (Nat.eqb (nat_of_ascii c) 10)
                      && negb (Nat.eqb (nat_of_ascii c) 13)) s.

(** A method body that changes nothing and calls no validator. *)
Definition read_only {A} (m : M A) : Prop :=
  ∀ this, after (m this) = this ∧ calls_of (m this) = [].

(** A string made of white space only. *)
Fixpoint blank (s : string) : bool :=
  match s with
  | EmptyString => true
  | String c rest => is_white_space c && blank rest
  end.
End Invariants.

Import Js Types Dom Constants Services Controller Samples Statements.
Import Invariants.

(* ===================================================================== *)
(** * Theorems                                                            *)
(* ===================================================================== *)

(** ** Validators *)

Section ValidatorFacts.
Context {engine : Engine}.

Lemma num_ge_NaN_l y : num_ge NaN y = false.
Proof. reflexivity. Qed.

Lemma num_le_NaN_l y : num_le NaN y = false.
Proof. reflexivity. Qed.

(** C2. When the characters left after stripping do not parse, [#toNumber]
    is [NaN], not 0: [min] and [max] both fail, whatever the bound. *)
Theorem min_max_fail_on_unparseable_text (s : string) (b : JsValue) :
  parseInt (Validators.strip_non_numeric s) = NaN →
  Validators.min (VString s) b
  = Ok (Some {| message := "The value must be greater than or equal to "
                             ++ ToString b ++ ".";
                payload := [("min", b); ("value", VString s)] |})
  ∧ Validators.max (VString s) b
    = Ok (Some {| message := "The value must be less than or equal to "
                               ++ ToString b ++ ".";
                  payload := [("max", b); ("value", VString s)] |}).
Proof.
  intros Hnan.
  unfold Validators.min, Validators.max, js_ge, js_le.
  cbn [Validators.toNumber ToNumber]. rewrite Hnan.
  rewrite num_ge_NaN_l, num_le_NaN_l. split; reflexivity.
Qed.

(** [required] returns on strings. *)
Lemma required_string_returns (s : string) (a : JsValue) :
  ∃ r, Validators.required (VString s) a = Ok r.
Proof.
  unfold Validators.required.
  destruct (negb (String.eqb (trim s) "")); eauto.
Qed.

(** [required] raises on everything else. *)
Lemma required_raises_iff (v a : JsValue) :
  Validators.required v a = Throw TypeError ↔ is_string v = false.
Proof.
  destruct v; cbn; try (split; [reflexivity | reflexivity]).
  split; [| discriminate].
  destruct (negb (String.eqb (trim s) "")); discriminate.
Qed.
End ValidatorFacts.

(** [min("abc", 0)] and [max("abc", 0)] both fail. *)
Lemma min_max_fail_on_abc :
  parseInt (Validators.strip_non_numeric "abc") = NaN
  ∧ Validators.min (engine := literalEngine) (VString "abc") (VNumber (Num 0))
    = Ok (Some {| message := "The value must be greater than or equal to 0.";
                  payload := [("min", VNumber (Num 0)); ("value", VString "abc")] |})
  ∧ Validators.max (engine := literalEngine) (VString "abc") (VNumber (Num 0))
    = Ok (Some {| message := "The value must be less than or equal to 0.";
                  payload := [("max", VNumber (Num 0)); ("value", VString "abc")] |}).
Proof.
  split; [reflexivity |].
  apply (min_max_fail_on_unparseable_text (engine := literalEngine) "abc" (VNumber (Num 0))).
  reflexivity.
Defined.

(** ** Value extraction *)

(** C3. A checkbox group with one checked option that has no [value]
    attribute is read as the one-element array [[true]]; the bare [true] is
    never the result, for no group at all. *)
Theorem getCheckboxValue_never_bare_true :
  getCheckboxValue agree_checked "agree" = VArray [VBool true]
  ∧ ∀ form controlName, getCheckboxValue form controlName ≠ VBool true.
Proof.
  split; [reflexivity |].
  intros form controlName. unfold getCheckboxValue.
  destruct (elements_at form _) as [| e es]; cbn; discriminate.
Qed.

(** What [getCheckboxValue] returns in general: [false] when no option of
    the group is checked, else the array with one entry per checked option. *)
Lemma getCheckboxValue_cases (form : HTMLFormElement) (controlName : string) :
  getCheckboxValue form controlName
  = match elements_at form
            (querySelectorAll (sel_name_checked controlName) form) with
    | [] => VBool false
    | checked =>
        VArray (map (fun i => if truthy_attr (valueAttribute i)
                              then VString (value i) else VBool true)
                  checked)
    end.
Proof.
  unfold getCheckboxValue. by destruct (elements_at form _) as [| e es].
Qed.

(** With no option checked the result is [false], and two checked options
    with [value] attributes give the array of both. *)
Lemma getCheckboxValue_samples :
  getCheckboxValue agree_required "agree" = VBool false
  ∧ getCheckboxValue colours_checked "colour"
    = VArray [VString "red"; VString "blue"].
Proof. split; reflexivity. Qed.

(** ** validateField *)

(** C10. [required] returns on every string and raises on every other value;
    and there are [validateField] calls that reach it with a value that is
    not a string. On an unchecked checkbox declared [data-required] the value
    read is [false]; on a field with an empty control name declared
    [data-required] the value read is [undefined]; in both the built-in
    [required] is called with that value and the call raises. *)
Theorem required_raises_on_unchecked_checkbox :
  (∀ (s : string) (a : JsValue), ∃ r, Validators.required (VString s) a = Ok r)
  ∧ (∀ v a : JsValue,
       Validators.required v a = Throw TypeError ↔ is_string v = false)
  ∧ generateValue (input "checkbox" (Some "agree")
                     [("controlName", "agree"); ("required", "")])
      agree_required = Ok (VBool false)
  ∧ validateField (engine := literalEngine) 0%nat (bound agree_required)
    = (bound agree_required,
       [{| origin := BuiltIn; rule := "required"; argument := VBool false;
           parameter := VString "" |}],
       Throw TypeError)
  ∧ generateValue nameless_required [nameless_required] = Ok VUndefined
  ∧ validateField (engine := literalEngine) 0%nat (bound [nameless_required])
    = (bound [nameless_required],
       [{| origin := BuiltIn; rule := "required"; argument := VUndefined;
           parameter := VString "" |}],
       Throw TypeError).
Proof.
  split; [exact required_string_returns |].
  split; [exact required_raises_iff |].
  repeat split.
Qed.

(** C5. A natively disabled field whose control name is empty is not
    skipped: [validateField] calls the built-in [min] on it and leaves the
    invalid marker it carries in place; had it declared [data-required], the
    call would raise. *)
Theorem validateField_disabled_nameless_runs_rules :
  let field := classList_add "rf-invalid" (set_disabled true nameless_min) in
  disabled_or_hidden field = true
  ∧ validateField (engine := literalEngine) 0%nat (bound [field])
    = (bound [field],
       [{| origin := BuiltIn; rule := "min"; argument := VUndefined;
           parameter := VString "3" |}],
       Ok tt)
  ∧ outcome_of (validateField (engine := literalEngine) 0%nat
                  (bound [set_disabled true nameless_required]))
    = Throw TypeError.
Proof. repeat split. Qed.

Section ValidateFieldFacts.
Context {engine : Engine}.

(** A disabled or hidden field that has a control name is skipped: the
    error its name resolves to is hidden and no validator is called. *)
Lemma validateField_skips_named (this : FormNinja) (field : handle)
    (el : HTMLElement) (controlName : string) :
  form this !! field = Some el →
  dataset_get (dataset el) "controlName" = Some controlName →
  controlName ≠ "" →
  disabled_or_hidden el = true →
  (∃ v, generateValue el (form this) = Ok v) →
  validateField field this
  = ({| form := hideError controlName (form this);
        validations := validations this |}, [], Ok tt).
Proof.
  intros Hel Hname Hne Hskip [v Hv].
  unfold validateField, bind, element, this_form, perform, mutate.
  rewrite Hel. cbn. rewrite Hv. cbn.
  unfold disabled_or_hidden in Hskip. rewrite Hskip, Hname. cbn.
  apply String.eqb_neq in Hne. rewrite Hne. reflexivity.
Qed.


End ValidateFieldFacts.



(** ** Names that resolve to no field *)

Section UnresolvedNames.
Context {engine : Engine}.

Lemma getField_unresolved (this : FormNinja) (name : string) :
  querySelector (sel_control_name name) (form this) = None →
  getField name this = (this, [], Ok None).
Proof.
  intros Hq. unfold getField, bind, this_form, ret. cbn. by rewrite Hq.
Qed.

(** C8, as the code has it. Let [name] be a name that can be written
    between quotes in a selector and that resolves to no field. Then
    [getField] finds nothing, and [setValue] and [resetField] return at once
    with the instance as it was and without calling a validator; so does
    [trigger], provided [name] is not empty. The empty name makes [trigger]
    do what [validate()] does on the whole form. *)
Theorem unresolved_name_is_absorbed (this : FormNinja) (name value : string)
    (config : option SetValueConfig) :
  quotable name = true →
  querySelector (sel_control_name name) (form this) = None →
  getField name this = (this, [], Ok None)
  ∧ setValue name value config this = (this, [], Ok tt)
  ∧ resetField (inl name) this = (this, [], Ok tt)
  ∧ (name ≠ "" → trigger (Some name) this = (this, [], Ok tt))
  ∧ (name = "" → trigger (Some name) this = validate this).
Proof.
  intros _ Hq. pose proof (getField_unresolved this name Hq) as Hget.
  split; [exact Hget |].
  split; [unfold setValue, bind; by rewrite Hget |].
  split; [unfold resetField, bind; by rewrite Hget |].
  split.
  - intros Hne. apply String.eqb_neq in Hne.
    unfold trigger, truthy_attr. rewrite Hne.
    change (default "" (Some name)) with name.
    cbn [negb]. unfold bind. by rewrite Hget.
  - intros ->. reflexivity.
Qed.
End UnresolvedNames.

(** No field of the sample form is called [phone]. *)
Lemma unresolved_name_phone :
  quotable "phone" = true
  ∧ querySelector (sel_control_name "phone") (form (bound age_required)) = None
  ∧ getField "phone" (bound age_required) = (bound age_required, [], Ok None)
  ∧ setValue (engine := literalEngine) "phone" "1" None (bound age_required)
    = (bound age_required, [], Ok tt)
  ∧ resetField (inl "phone") (bound age_required) = (bound age_required, [], Ok tt)
  ∧ ("phone" ≠ "" →
     trigger (engine := literalEngine) (Some "phone") (bound age_required)
     = (bound age_required, [], Ok tt))
  ∧ ("phone" = "" →
     trigger (engine := literalEngine) (Some "phone") (bound age_required)
     = validate (engine := literalEngine) (bound age_required)).
Proof.
  split; [reflexivity |]. split; [reflexivity |].
  apply (unresolved_name_is_absorbed (engine := literalEngine)
           (bound age_required) "phone" "1" None);
    reflexivity.
Defined.

(** C8, as stated, fails for [trigger]: the empty name resolves to no field
    of the sample form, yet [trigger("")] validates the form and marks its
    required, empty field as invalid. *)
Lemma trigger_empty_name_validates :
  querySelector (sel_control_name "") (form (bound age_required)) = None
  ∧ after (trigger (engine := literalEngine) (Some "") (bound age_required))
    = bound
        [classList_add "rf-invalid"
           (input "text" (Some "age") [("controlName", "age"); ("required", "")]);
         error_paragraph "age" "This field is required and cannot be left blank."]
  ∧ after (trigger (engine := literalEngine) (Some "") (bound age_required))
    ≠ bound age_required.
Proof. split; [reflexivity |]. split; [reflexivity | discriminate]. Qed.

(** ** Error resolution *)

Section GenerateErrorFacts.
Context {engine : Engine}.

(** Every built-in name is a static method of [Validators]. *)
Lemma static_method_builtin (name : string) :
  is_builtin name = true → ∃ f, Validators.static_method name = Some f.
Proof.
  unfold is_builtin, Validators.static_method, BUILT_IN_VALIDATORS. cbn.
  repeat (destruct (String.eqb name _); [eauto |]).
  discriminate.
Qed.

(** One turn of the loop of [generateError], read through [rule_outcome]. *)
Lemma generateError_from_cons (dataset : DOMStringMap)
    (validations : gmap string ValidatorFunction) (value : JsValue)
    (validator : string) (rest : list string) :
  generateError_from dataset validations value (validator :: rest)
  = match rule_outcome dataset validations value validator with
    | None => generateError_from dataset validations value rest
    | Some (call, Throw e) => ([call], Throw e)
    | Some (call, Ok (Some error)) =>
        ([call], Ok (Some (with_custom_message dataset validator error)))
    | Some (call, Ok None) =>
        (call :: (generateError_from dataset validations value rest).1,
         (generateError_from dataset validations value rest).2)
    end.
Proof.
  unfold rule_outcome, registry_lookup.
  cbn [generateError_from]. fold (is_builtin validator).
  destruct (is_builtin validator) eqn:Hb.
  - destruct (static_method_builtin validator Hb) as [f ->]. cbn.
    destruct (f value _) as [[error |] | e]; try reflexivity.
    by destruct (generateError_from dataset validations value rest).
  - destruct (validations !! validator) as [f |]; cbn; [| reflexivity].
    destruct (f value _) as [[error |] | e]; try reflexivity.
    by destruct (generateError_from dataset validations value rest).
Qed.

Lemma calls_for_cons (dataset : DOMStringMap)
    (validations : gmap string ValidatorFunction) (value : JsValue)
    (name : string) (names : list string) :
  calls_for dataset validations value (name :: names)
  = match rule_outcome dataset validations value name with
    | Some (call, _) => call :: calls_for dataset validations value names
    | None => calls_for dataset validations value names
    end.
Proof.
  unfold calls_for. cbn [omap list_omap].
  by destruct (rule_outcome dataset validations value name) as [[c r] |].
Qed.

(** The loop goes through rules that pass and carries on with the rest. *)
Lemma generateError_from_passing (dataset : DOMStringMap)
    (validations : gmap string ValidatorFunction) (value : JsValue)
    (pre rest : list string) :
  forallb (passes dataset validations value) pre = true →
  generateError_from dataset validations value (pre ++ rest)
  = ((calls_for dataset validations value pre
      ++ (generateError_from dataset validations value rest).1)%list,
     (generateError_from dataset validations value rest).2).
Proof.
  intros Hpre. induction pre as [| n pre IH].
  - cbn [app calls_for omap list_omap].
    by destruct (generateError_from dataset validations value rest).
  - cbn [forallb] in Hpre. apply andb_true_iff in Hpre as [Hn Hpre].
    specialize (IH Hpre). cbn [app].
    rewrite generateError_from_cons, calls_for_cons.
    unfold passes in Hn.
    destruct (rule_outcome dataset validations value n)
      as [[c [[err |] | ex]] |]; try discriminate; cbn.
    + rewrite IH. reflexivity.
    + exact IH.
Qed.

Lemma generateError_from_first_failure (dataset : DOMStringMap)
    (validations : gmap string ValidatorFunction) (value : JsValue)
    (pre : list string) (k : string) (post : list string)
    (call : Invocation) (e : ErrorDetail) :
  forallb (passes dataset validations value) pre = true →
  rule_outcome dataset validations value k = Some (call, Ok (Some e)) →
  generateError_from dataset validations value (pre ++ k :: post)
  = ((calls_for dataset validations value pre ++ [call])%list,
     Ok (Some (with_custom_message dataset k e))).
Proof.
  intros Hpre Hk.
  rewrite (generateError_from_passing _ _ _ pre (k :: post) Hpre).
  by rewrite generateError_from_cons, Hk.
Qed.

(** C1, as the code has it. Let the rule [k] be declared after the names
    [pre] and before the names [post]; let the own keys of the registry
    decide what the names in [pre] stand for, no rule in [pre] fail, and the
    validator of [k] return [e]. Then the validators called are those of the
    rules in [pre], in order, then that of [k], and none for [post]; the
    result is [e] with its payload untouched, and with its message replaced
    by the attribute [k ++ "Message"] when that attribute is declared and not
    empty. *)
Theorem first_failing_rule_wins (dataset : DOMStringMap)
    (validations : gmap string ValidatorFunction) (value : JsValue)
    (pre : list string) (k : string) (post : list string)
    (call : Invocation) (e : ErrorDetail) :
  dataset_keys dataset = (pre ++ k :: post)%list →
  forallb (own_decides validations) pre = true →
  forallb (passes dataset validations value) pre = true →
  rule_outcome dataset validations value k = Some (call, Ok (Some e)) →
  generateError dataset validations value
  = ((calls_for dataset validations value pre ++ [call])%list,
     Ok (Some {| message :=
                   match dataset_get dataset (k ++ "Message") with
                   | Some m => if String.eqb m "" then message e else m
                   | None => message e
                   end;
                 payload := payload e |})).
Proof.
  intros Hkeys _ Hpre Hk. unfold generateError. rewrite Hkeys.
  rewrite (generateError_from_first_failure _ _ _ pre k post call e Hpre Hk).
  f_equal. f_equal. f_equal.
  unfold with_custom_message, truthy_attr, set_message.
  destruct (dataset_get dataset (k ++ "Message")) as [m |]; cbn.
  - destruct (String.eqb m ""); cbn; [by destruct e | reflexivity].
  - by destruct e.
Qed.

(** A call is recorded as built-in exactly when its rule name is built-in. *)
Lemma generateError_from_origin (dataset : DOMStringMap)
    (validations : gmap string ValidatorFunction) (value : JsValue)
    (names : list string) :
  Forall (fun c => origin c = BuiltIn ↔ is_builtin (rule c) = true)
    (generateError_from dataset validations value names).1.
Proof.
  induction names as [| n names IH]; [constructor |].
  rewrite generateError_from_cons.
  unfold rule_outcome, registry_lookup.
  destruct (is_builtin n) eqn:Hb.
  - destruct (Validators.static_method n) as [f |]; [| exact IH].
    cbn [fmap option_fmap option_map].
    destruct (f value _) as [[err |] | ex]; cbn [fst];
      (apply Forall_cons; split; [cbn [origin rule]; tauto |]);
      first [exact IH | constructor].
  - destruct (validations !! n) as [f |]; [| exact IH].
    cbn [fmap option_fmap option_map].
    destruct (f value _) as [[err |] | ex]; cbn [fst];
      (apply Forall_cons; split;
       [cbn [origin rule]; rewrite Hb; split; discriminate |]);
      first [exact IH | constructor].
Qed.

(** A custom validator under a built-in name is never looked at. *)
Lemma generateError_from_delete_builtin (dataset : DOMStringMap)
    (validations : gmap string ValidatorFunction) (value : JsValue)
    (k : string) (names : list string) :
  is_builtin k = true →
  generateError_from dataset validations value names
  = generateError_from dataset (delete k validations) value names.
Proof.
  intros Hk. induction names as [| n names IH]; [reflexivity |].
  rewrite !generateError_from_cons, IH.
  replace (rule_outcome dataset (delete k validations) value n)
    with (rule_outcome dataset validations value n); [reflexivity |].
  unfold rule_outcome, registry_lookup.
  destruct (is_builtin n) eqn:Hn; [reflexivity |].
  rewrite lookup_delete_ne; [reflexivity | congruence].
Qed.

(** The turn of the loop for a built-in name. *)
Lemma rule_outcome_builtin (dataset : DOMStringMap)
    (validations : gmap string ValidatorFunction) (value : JsValue)
    (k : string) (g : ValidatorFunction) :
  is_builtin k = true →
  Validators.static_method k = Some g →
  rule_outcome dataset validations value k
  = Some ({| origin := BuiltIn; rule := k; argument := value;
             parameter := attribute_value dataset k |},
          g value (attribute_value dataset k)).
Proof.
  intros Hk Hg. unfold rule_outcome, registry_lookup. by rewrite Hk, Hg.
Qed.

(** C4, where the own keys decide. Let [k] be a built-in name that is also
    a key of the custom validators [validations], declared after the names
    [pre], none of which fails, and before the names [post]; and let the own
    keys of the other custom validators decide what every declared name
    stands for. Then [k] is a static method [g] of [Validators], and
    resolution calls [g] on the value and the attribute of [k], right after
    the calls for [pre]: what [g] raises or returns is what resolution raises
    or returns (with the message override applied), and when [g] returns
    nothing resolution carries on with [post]. No call made under the name
    [k] is a call of a custom validator, and the whole outcome, calls and
    result, is what it is with the key [k] removed from [validations]. *)
Theorem builtin_shadows_custom (dataset : DOMStringMap)
    (validations : gmap string ValidatorFunction) (value : JsValue)
    (pre : list string) (k : string) (post : list string)
    (f : ValidatorFunction) :
  is_builtin k = true →
  validations !! k = Some f →
  dataset_keys dataset = (pre ++ k :: post)%list →
  forallb (passes dataset validations value) pre = true →
  forallb (own_decides (delete k validations)) (dataset_keys dataset) = true →
  ∃ g : ValidatorFunction,
    Validators.static_method k = Some g
    ∧ (let call := {| origin := BuiltIn; rule := k; argument := value;
                      parameter := attribute_value dataset k |} in
       let before := calls_for dataset validations value pre in
       let later := generateError_from dataset validations value post in
       generateError dataset validations value
       = match g value (attribute_value dataset k) with
         | Throw e => ((before ++ [call])%list, Throw e)
         | Ok (Some error) =>
             ((before ++ [call])%list,
              Ok (Some (with_custom_message dataset k error)))
         | Ok None => ((before ++ call :: later.1)%list, later.2)
         end)
    ∧ Forall (fun c => rule c = k → origin c = BuiltIn)
        (generateError dataset validations value).1
    ∧ generateError dataset validations value
      = generateError dataset (delete k validations) value.
Proof.
  intros Hk _ Hkeys Hpre _.
  destruct (static_method_builtin k Hk) as [g Hg].
  exists g. split; [exact Hg |]. split; [| split].
  - cbv zeta. unfold generateError. rewrite Hkeys.
    rewrite (generateError_from_passing _ _ _ pre (k :: post) Hpre).
    rewrite generateError_from_cons.
    rewrite (rule_outcome_builtin dataset validations value k g Hk Hg).
    by destruct (g value (attribute_value dataset k)) as [[error |] | e].
  - eapply Forall_impl; [apply generateError_from_origin |].
    intros c Hc Hr. apply Hc. by rewrite Hr.
  - by apply generateError_from_delete_builtin.
Qed.
End GenerateErrorFacts.

(** The rules of [age_rules] on the value ["2"]: [isShort] passes, [min]
    fails and is overridden, [max] is never called. *)
Lemma first_failing_rule_wins_age :
  let validations : gmap string ValidatorFunction := {[ "isShort" := accept_all ]} in
  let call := {| origin := BuiltIn; rule := "min"; argument := VString "2";
                 parameter := VString "3" |} in
  let e := {| message := "The value must be greater than or equal to 3.";
              payload := [("min", VString "3"); ("value", VString "2")] |} in
  dataset_keys age_rules = (["controlName"; "isShort"] ++ "min" :: ["minMessage"; "max"])%list
  ∧ forallb (own_decides validations) ["controlName"; "isShort"] = true
  ∧ forallb (passes (engine := literalEngine) age_rules validations (VString "2"))
      ["controlName"; "isShort"] = true
  ∧ rule_outcome (engine := literalEngine) age_rules validations (VString "2") "min"
    = Some (call, Ok (Some e))
  ∧ generateError (engine := literalEngine) age_rules validations (VString "2")
    = ([{| origin := Custom; rule := "isShort"; argument := VString "2";
           parameter := VString "" |}; call],
       Ok (Some {| message := "too small";
                   payload := [("min", VString "3"); ("value", VString "2")] |})).
Proof.
  cbv zeta.
  split; [reflexivity |]. split; [vm_compute; reflexivity |].
  split; [vm_compute; reflexivity |]. split; [vm_compute; reflexivity |].
  refine (first_failing_rule_wins (engine := literalEngine) age_rules
            {[ "isShort" := accept_all ]} (VString "2")
            ["controlName"; "isShort"] "min" ["minMessage"; "max"]
            {| origin := BuiltIn; rule := "min"; argument := VString "2";
               parameter := VString "3" |}
            {| message := "The value must be greater than or equal to 3.";
               payload := [("min", VString "3"); ("value", VString "2")] |}
            _ _ _ _);
    vm_compute; reflexivity.
Defined.

(** C1, as stated, fails on an override that is declared and empty: the
    message of the built-in validator is kept, not replaced by the empty
    string. *)
Lemma generateError_keeps_message_on_empty_override :
  dataset_get required_empty_override ("required" ++ "Message") = Some ""
  ∧ generateError (engine := literalEngine) required_empty_override ∅ (VString "")
    = ([{| origin := BuiltIn; rule := "required"; argument := VString "";
           parameter := VString "" |}],
       Ok (Some {| message := "This field is required and cannot be left blank.";
                   payload := [] |}))
  ∧ "This field is required and cannot be left blank." ≠ "".
Proof. split; [reflexivity |]. split; [reflexivity | discriminate]. Qed.

(** A custom [required] that accepts everything changes nothing: the
    built-in [required] is called on the empty string and rejects it. *)
Lemma builtin_shadows_custom_required :
  let dataset := [("controlName", "age"); ("required", "")] in
  let validations : gmap string ValidatorFunction := {[ "required" := accept_all ]} in
  is_builtin "required" = true
  ∧ validations !! "required" = Some accept_all
  ∧ dataset_keys dataset = (["controlName"] ++ "required" :: [])%list
  ∧ forallb (passes (engine := literalEngine) dataset validations (VString ""))
      ["controlName"] = true
  ∧ forallb (own_decides (delete "required" validations)) (dataset_keys dataset)
    = true
  ∧ generateError (engine := literalEngine) dataset validations (VString "")
    = ([{| origin := BuiltIn; rule := "required"; argument := VString "";
           parameter := VString "" |}],
       Ok (Some {| message := "This field is required and cannot be left blank.";
                   payload := [] |}))
  ∧ ∃ g : ValidatorFunction,
      Validators.static_method (engine := literalEngine) "required" = Some g
      ∧ (let call := {| origin := BuiltIn; rule := "required";
                        argument := VString "";
                        parameter := attribute_value dataset "required" |} in
         let before := calls_for (engine := literalEngine) dataset validations
                         (VString "") ["controlName"] in
         let later := generateError_from (engine := literalEngine) dataset
                        validations (VString "") [] in
         generateError (engine := literalEngine) dataset validations (VString "")
         = match g (VString "") (attribute_value dataset "required") with
           | Throw e => ((before ++ [call])%list, Throw e)
           | Ok (Some error) =>
               ((before ++ [call])%list,
                Ok (Some (with_custom_message dataset "required" error)))
           | Ok None => ((before ++ call :: later.1)%list, later.2)
           end)
      ∧ Forall (fun c => rule c = "required" → origin c = BuiltIn)
          (generateError (engine := literalEngine) dataset validations
             (VString "")).1
      ∧ generateError (engine := literalEngine) dataset validations (VString "")
        = generateError (engine := literalEngine) dataset
            (delete "required" validations) (VString "").
Proof.
  cbv zeta.
  split; [reflexivity |]. split; [vm_compute; reflexivity |].
  split; [reflexivity |]. split; [vm_compute; reflexivity |].
  split; [vm_compute; reflexivity |]. split; [vm_compute; reflexivity |].
  refine (builtin_shadows_custom (engine := literalEngine)
            [("controlName", "age"); ("required", "")]
            {[ "required" := accept_all ]} (VString "")
            ["controlName"] "required" [] accept_all _ _ _ _ _);
    vm_compute; reflexivity.
Defined.

(** ** reset *)

Section ResetFacts.

Lemma dataset_get_set_eq (d : DOMStringMap) (key v : string) :
  dataset_get (dataset_set d key v) key = Some v.
Proof.
  induction d as [| [k w] d IH]; cbn.
  - by rewrite String.eqb_refl.
  - destruct (String.eqb k key) eqn:Hk; cbn; by rewrite Hk.
Qed.

Lemma dataset_get_set_ne (d : DOMStringMap) (key v k : string) :
  k ≠ key → dataset_get (dataset_set d key v) k = dataset_get d k.
Proof.
  intros Hne. induction d as [| [k' w] d IH]; cbn.
  - apply String.eqb_neq in Hne. rewrite String.eqb_sym. by rewrite Hne.
  - destruct (String.eqb k' key) eqn:Hk; cbn.
    + apply String.eqb_eq in Hk as ->.
      assert (String.eqb key k = false) as ->; [| reflexivity].
      apply String.eqb_neq. congruence.
    + by rewrite IH.
Qed.

Lemma cleared_more_refl (e : HTMLElement) : cleared_more e e.
Proof. by constructor. Qed.

Lemma cleared_more_trans (e1 e2 e3 : HTMLElement) :
  cleared_more e1 e2 → cleared_more e2 e3 → cleared_more e1 e3.
Proof.
  intros [a1 b1 c1 d1 f1 g1] [a2 b2 c2 d2 f2 g2].
  constructor; try congruence; auto.
Qed.

Lemma cleared_later_refl (form : HTMLFormElement) : cleared_later form form.
Proof.
  apply Forall_Forall2_diag, Forall_forall. intros. apply cleared_more_refl.
Qed.

Lemma cleared_later_trans (f1 f2 f3 : HTMLFormElement) :
  cleared_later f1 f2 → cleared_later f2 f3 → cleared_later f1 f3.
Proof.
  unfold cleared_later. rewrite !Forall2_same_length_lookup.
  intros [Hl1 H1] [Hl2 H2]. split; [congruence |].
  intros i x z Hx Hz.
  destruct (lookup_lt_is_Some_2 f2 i) as [y Hy].
  { rewrite <- Hl1. apply lookup_lt_is_Some_1. eauto. }
  eapply cleared_more_trans; eauto.
Qed.

(** The four element updates [resetField] and [hideError] make. *)
Lemma cleared_more_set_value (e : HTMLElement) : cleared_more e (set_value "" e).
Proof.
  constructor; try reflexivity; try (intros; assumption).
  intros [_ Hd]. split; [reflexivity | exact Hd].
Qed.

Lemma cleared_more_stage (e : HTMLElement) :
  cleared_more e (set_dataset (dataset_set (dataset e) "value" "") e).
Proof.
  constructor; try reflexivity; try (intros; assumption).
  - cbn. by apply dataset_get_set_ne.
  - intros [Hv _]. split; [exact Hv |]. cbn. apply dataset_get_set_eq.
Qed.

Lemma classList_remove_contains (c : string) (e : HTMLElement) :
  classList_contains c (classList_remove c e) = false.
Proof.
  unfold classList_contains, classList_remove.
  change (classList (set_classList ?l e)) with l.
  induction (classList e) as [| x xs IH]; [reflexivity |].
  cbn [List.filter]. destruct (String.eqb c x) eqn:Hc; cbn [negb].
  - exact IH.
  - cbn [existsb]. rewrite Hc. exact IH.
Qed.

Lemma unmarked_classList_remove (e : HTMLElement) :
  unmarked (classList_remove "rf-invalid" e).
Proof. apply classList_remove_contains. Qed.

Lemma cleared_more_classList_remove (e : HTMLElement) :
  cleared_more e (classList_remove "rf-invalid" e).
Proof.
  constructor; try reflexivity; try (intros; assumption).
  intros _. apply unmarked_classList_remove.
Qed.

Lemma cleared_more_set_innerHTML (e : HTMLElement) :
  cleared_more e (set_innerHTML "" e).
Proof. constructor; try reflexivity; intros; assumption. Qed.

Lemma cleared_later_alter (g : HTMLElement → HTMLElement) (j : handle)
    (form : HTMLFormElement) :
  (∀ e, cleared_more e (g e)) → cleared_later form (alter g j form).
Proof.
  intros Hg. apply Forall2_alter_r; [apply cleared_later_refl |].
  intros x y _ _ Hxy. eapply cleared_more_trans; [exact Hxy | apply Hg].
Qed.

Lemma cleared_later_on_match (o : option handle)
    (g : HTMLElement → HTMLElement) (form : HTMLFormElement) :
  (∀ e, cleared_more e (g e)) → cleared_later form (on_match o g form).
Proof.
  intros Hg. destruct o as [j |]; cbn.
  - by apply cleared_later_alter.
  - apply cleared_later_refl.
Qed.

(** Queries *)


Lemma stable_sel_control_name (n : string) : stable (sel_control_name n).
Proof. intros e e' [Hc _ _ _ _ _]. unfold sel_control_name. by rewrite Hc. Qed.

Lemma stable_sel_form_group (n : string) : stable (sel_form_group n).
Proof. intros e e' [_ Hg _ _ _ _]. unfold sel_form_group. by rewrite Hg. Qed.

Lemma stable_sel_error_message (n : string) : stable (sel_error_message n).
Proof. intros e e' [_ _ He _ _ _]. unfold sel_error_message. by rewrite He. Qed.

Lemma kept_unmarked : kept unmarked.
Proof. intros e e' H. apply H. Qed.

Lemma kept_value_cleared : kept value_cleared.
Proof. intros e e' H. apply H. Qed.

Lemma kept_text_cleared : kept text_cleared.
Proof. intros e e' H. apply H. Qed.

Lemma querySelectorAll_stable (sel : selector) (f f' : HTMLFormElement) :
  stable sel → cleared_later f f' →
  querySelectorAll sel f' = querySelectorAll sel f.
Proof.
  intros Hsel Hff. unfold querySelectorAll.
  rewrite <- (Forall2_length _ _ _ Hff).
  apply filter_ext_in. intros i _. unfold matches_at.
  destruct (f !! i) as [e |] eqn:He.
  - destruct (Forall2_lookup_l _ _ _ _ _ Hff He) as (e' & He' & Hee).
    rewrite He'. by apply Hsel.
  - destruct (f' !! i) as [e' |] eqn:He'; [| reflexivity].
    destruct (Forall2_lookup_r _ _ _ _ _ Hff He') as (e & He2 & _). congruence.
Qed.

Lemma querySelector_stable (sel : selector) (f f' : HTMLFormElement) :
  stable sel → cleared_later f f' →
  querySelector sel f' = querySelector sel f.
Proof.
  intros. unfold querySelector. by rewrite (querySelectorAll_stable sel f f').
Qed.

Lemma querySelectorAll_lookup (sel : selector) (f : HTMLFormElement) (j : handle) :
  j ∈ querySelectorAll sel f ↔ ∃ e, f !! j = Some e ∧ sel e = true.
Proof.
  unfold querySelectorAll. rewrite list_elem_of_In, filter_In.
  unfold matches_at. split.
  - intros [_ Hm]. destruct (f !! j) as [e |]; [eauto | discriminate].
  - intros (e & He & Hs). rewrite He. split; [| exact Hs].
    apply in_seq. split; [lia |]. cbn. apply lookup_lt_is_Some_1. eauto.
Qed.

Lemma querySelector_lookup (sel : selector) (f : HTMLFormElement) (j : handle) :
  querySelector sel f = Some j → ∃ e, f !! j = Some e ∧ sel e = true.
Proof.
  unfold querySelector. intros Hh.
  apply querySelectorAll_lookup.
  destruct (querySelectorAll sel f) as [| x xs]; [discriminate |].
  cbn in Hh. injection Hh as ->. apply list_elem_of_here.
Qed.

Lemma found_on_match (sel : selector) (g : HTMLElement → HTMLElement)
    (form : HTMLFormElement) (P : HTMLElement → Prop) :
  stable sel → (∀ e, cleared_more e (g e)) → (∀ e, P (g e)) →
  found sel (on_match (querySelector sel form) g form) P.
Proof.
  intros Hsel Hg HP j Hj.
  rewrite (querySelector_stable sel form) in Hj;
    [| exact Hsel | by apply cleared_later_on_match].
  rewrite Hj. cbn [on_match].
  destruct (querySelector_lookup sel form j Hj) as (e & He & _).
  exists (g e). split; [| apply HP].
  by rewrite list_lookup_alter_eq, He.
Qed.

Lemma found_later (sel : selector) (P : HTMLElement → Prop)
    (f f' : HTMLFormElement) :
  stable sel → kept P → cleared_later f f' → found sel f P → found sel f' P.
Proof.
  intros Hsel HP Hff Hf j Hj.
  rewrite (querySelector_stable sel f f' Hsel Hff) in Hj.
  destruct (Hf j Hj) as (e & He & HPe).
  destruct (Forall2_lookup_l _ _ _ _ _ Hff He) as (e' & He' & Hee).
  exists e'. split; [exact He' | by apply (HP e e')].
Qed.

(** [hideError] clears what the name resolves to and nothing that was
    already cleared gets set again. *)
Lemma hideError_clears (controlName : string) (form : HTMLFormElement) :
  cleared_later form (hideError controlName form)
  ∧ found (sel_control_name controlName) (hideError controlName form) unmarked
  ∧ found (sel_form_group controlName) (hideError controlName form) unmarked
  ∧ found (sel_error_message controlName) (hideError controlName form)
      text_cleared.
Proof.
  unfold hideError, removeInvalidClass.
  set (f1 := on_match (querySelector (sel_form_group controlName) form)
               (classList_remove "rf-invalid") form).
  set (f2 := on_match (querySelector (sel_control_name controlName) form)
               (classList_remove "rf-invalid") f1).
  set (f3 := on_match (querySelector (sel_error_message controlName) f2)
               (set_innerHTML "") f2).
  assert (H01 : cleared_later form f1)
    by apply cleared_later_on_match, cleared_more_classList_remove.
  assert (H12 : cleared_later f1 f2)
    by apply cleared_later_on_match, cleared_more_classList_remove.
  assert (H23 : cleared_later f2 f3)
    by apply cleared_later_on_match, cleared_more_set_innerHTML.
  assert (G1 : found (sel_form_group controlName) f1 unmarked).
  { apply found_on_match;
      auto using stable_sel_form_group, cleared_more_classList_remove,
        unmarked_classList_remove. }
  assert (G2 : found (sel_control_name controlName) f2 unmarked).
  { unfold f2.
    rewrite <- (querySelector_stable (sel_control_name controlName) form f1);
      [| apply stable_sel_control_name | exact H01].
    apply found_on_match;
      auto using stable_sel_control_name, cleared_more_classList_remove,
        unmarked_classList_remove. }
  assert (G3 : found (sel_error_message controlName) f3 text_cleared).
  { apply found_on_match;
      auto using stable_sel_error_message, cleared_more_set_innerHTML.
    reflexivity. }
  split; [eauto using cleared_later_trans |].
  split; [eauto using found_later, stable_sel_control_name, kept_unmarked |].
  split; [| exact G3].
  eapply found_later;
    [apply stable_sel_form_group | apply kept_unmarked | | exact G1].
  eauto using cleared_later_trans.
Qed.

Lemma field_reset_later (f f' : HTMLFormElement) (field : handle) :
  cleared_later f f' → field_reset f field → field_reset f' field.
Proof.
  intros Hff (el & Hel & Hv & Hn).
  destruct (Forall2_lookup_l _ _ _ _ _ Hff Hel) as (el' & Hel' & Hee).
  exists el'. split; [exact Hel' |]. split; [by apply (kept_value_cleared el) |].
  intros n Hname Hne. rewrite (cm_control _ _ Hee) in Hname.
  destruct (Hn n Hname Hne) as (F1 & F2 & F3).
  eauto 10 using found_later, stable_sel_control_name, stable_sel_form_group,
    stable_sel_error_message, kept_unmarked, kept_text_cleared.
Qed.

(** [resetField(field)] on an element of the form. *)
Lemma resetField_element (this : FormNinja) (field : handle) :
  (field < length (form this))%nat →
  ∃ form',
    resetField (inr field) this
    = ({| form := form'; validations := validations this |}, [], Ok tt)
    ∧ cleared_later (form this) form'
    ∧ field_reset form' field.
Proof.
  intros Hlt. destruct (lookup_lt_is_Some_2 _ _ Hlt) as [el Hel].
  set (stage := fun e => set_dataset (dataset_set (dataset e) "value" "") e).
  set (f1 := alter (set_value "") field (form this)).
  set (f2 := alter stage field f1).
  assert (H01 : cleared_later (form this) f1)
    by apply cleared_later_alter, cleared_more_set_value.
  assert (H12 : cleared_later f1 f2)
    by apply cleared_later_alter, cleared_more_stage.
  assert (Hel2 : f2 !! field = Some (stage (set_value "" el))).
  { unfold f2, f1. by rewrite !list_lookup_alter_eq, Hel. }
  assert (Hv2 : value_cleared (stage (set_value "" el))).
  { split; [reflexivity |]. cbn. apply dataset_get_set_eq. }
  unfold resetField, bind, ret, mutate, element. cbn.
  fold stage. fold f1. fold f2. rewrite Hel2. cbn - [stage].
  destruct (truthy_attr (dataset_get (dataset (stage (set_value "" el)))
                           "controlName")) eqn:Htruthy.
  - destruct (dataset_get (dataset (stage (set_value "" el))) "controlName")
      as [n |] eqn:Hn; [| discriminate].
    cbn [default from_option].
    destruct (hideError_clears n f2) as (H23 & F1 & F2 & F3).
    exists (hideError n f2). split; [reflexivity |].
    split; [eauto using cleared_later_trans |].
    destruct (Forall2_lookup_l _ _ _ _ _ H23 Hel2) as (el3 & Hel3 & Hee).
    exists el3. split; [exact Hel3 |].
    split; [by apply (kept_value_cleared _ _ Hee) |].
    intros n' Hn' _. rewrite (cm_control _ _ Hee), Hn in Hn'.
    injection Hn' as <-. auto.
  - exists f2. split; [reflexivity |].
    split; [eauto using cleared_later_trans |].
    exists (stage (set_value "" el)). split; [exact Hel2 |].
    split; [exact Hv2 |].
    intros n Hn Hne. rewrite Hn in Htruthy. cbn in Htruthy.
    apply String.eqb_neq in Hne. by rewrite Hne in Htruthy.
Qed.

(** The loop of [reset()]. *)
Lemma reset_loop (fs : list handle) (this : FormNinja) :
  (∀ field, field ∈ fs → (field < length (form this))%nat) →
  ∃ form',
    forEach (fun field => resetField (inr field)) fs this
    = ({| form := form'; validations := validations this |}, [], Ok tt)
    ∧ cleared_later (form this) form'
    ∧ ∀ field, field ∈ fs → field_reset form' field.
Proof.
  revert this. induction fs as [| i fs IH]; intros this Hlt.
  - exists (form this). split; [by destruct this |].
    split; [apply cleared_later_refl |]. intros field Hin. inversion Hin.
  - destruct (resetField_element this i) as (f1 & Hrun1 & H01 & Hreset1).
    { apply Hlt. apply list_elem_of_here. }
    destruct (IH {| form := f1; validations := validations this |})
      as (f2 & Hrun2 & H12 & Hreset2).
    { intros field Hin. cbn. rewrite <- (Forall2_length _ _ _ H01).
      apply Hlt. by apply list_elem_of_further. }
    cbn in Hrun2, H12. exists f2.
    split.
    { cbn [forEach]. unfold bind. rewrite Hrun1, Hrun2. reflexivity. }
    split; [eauto using cleared_later_trans |].
    intros field Hin. apply elem_of_cons in Hin as [-> | Hin].
    + by apply (field_reset_later f1 f2).
    + by apply Hreset2.
Qed.


End ResetFacts.



(* ===================================================================== *)
(** * Further properties of the code                                      *)
(* ===================================================================== *)

(** ** Error resolution: the other ways the loop ends *)

Section GenerateErrorEnds.
Context {engine : Engine}.

(** When the own keys decide what every declared name stands for and no
    declared rule fails, every rule is called, in declaration order, and the
    result is the absence of an error. *)
Theorem generateError_all_pass (dataset : DOMStringMap)
    (validations : gmap string ValidatorFunction) (value : JsValue) :
  forallb (own_decides validations) (dataset_keys dataset) = true →
  forallb (passes dataset validations value) (dataset_keys dataset) = true →
  generateError dataset validations value
  = (calls_for dataset validations value (dataset_keys dataset), Ok None).
Proof.
  intros _ Hall. unfold generateError.
  rewrite <- (app_nil_r (dataset_keys dataset)) at 1.
  rewrite (generateError_from_passing _ _ _ _ [] Hall).
  cbn [generateError_from fst snd]. by rewrite app_nil_r.
Qed.

(** A dataset none of whose attributes names a validator, built-in or
    custom, or a member that objects inherit, resolves to no error and calls
    nothing. *)
Theorem generateError_no_rules (dataset : DOMStringMap)
    (validations : gmap string ValidatorFunction) (value : JsValue) :
  Forall (fun k => is_builtin k = false ∧ validations !! k = None
                   ∧ inherited k = false)
    (dataset_keys dataset) →
  generateError dataset validations value = ([], Ok None).
Proof.
  unfold generateError. intros Hnone.
  induction Hnone as [| k ks (Hb & Hc & _) _ IH]; [reflexivity |].
  rewrite generateError_from_cons.
  unfold rule_outcome, registry_lookup. rewrite Hb, Hc. exact IH.
Qed.

(** When the first rule that does not pass raises, the exception leaves
    [generateError]: the rules before it were called, and none after it. *)
Theorem generateError_raise_propagates (dataset : DOMStringMap)
    (validations : gmap string ValidatorFunction) (value : JsValue)
    (pre : list string) (k : string) (post : list string)
    (call : Invocation) (e : exn) :
  dataset_keys dataset = (pre ++ k :: post)%list →
  forallb (own_decides validations) pre = true →
  forallb (passes dataset validations value) pre = true →
  rule_outcome dataset validations value k = Some (call, Throw e) →
  generateError dataset validations value
  = ((calls_for dataset validations value pre ++ [call])%list, Throw e).
Proof.
  intros Hkeys _ Hpre Hk. unfold generateError. rewrite Hkeys.
  rewrite (generateError_from_passing _ _ _ pre (k :: post) Hpre).
  by rewrite generateError_from_cons, Hk.
Qed.
End GenerateErrorEnds.

(** ["5"] passes [isShort] and [min 3]: both are called, no error. *)
Lemma generateError_all_pass_five :
  let dataset := [("controlName", "age"); ("isShort", ""); ("min", "3")] in
  let validations : gmap string ValidatorFunction := {[ "isShort" := accept_all ]} in
  forallb (own_decides validations) (dataset_keys dataset) = true
  ∧ forallb (passes (engine := literalEngine) dataset validations (VString "5"))
      (dataset_keys dataset) = true
  ∧ generateError (engine := literalEngine) dataset validations (VString "5")
    = ([{| origin := Custom; rule := "isShort"; argument := VString "5";
           parameter := VString "" |};
        {| origin := BuiltIn; rule := "min"; argument := VString "5";
           parameter := VString "3" |}],
       Ok None).
Proof.
  cbv zeta. split; [vm_compute; reflexivity |].
  split; [vm_compute; reflexivity |].
  refine (generateError_all_pass (engine := literalEngine)
            [("controlName", "age"); ("isShort", ""); ("min", "3")]
            {[ "isShort" := accept_all ]} (VString "5") _ _);
    vm_compute; reflexivity.
Defined.

(** Only bookkeeping attributes: nothing is called. *)
Lemma generateError_no_rules_bookkeeping :
  let dataset := [("controlName", "age"); ("value", "7"); ("disabled", "false")] in
  Forall (fun k => is_builtin k = false
                   ∧ (∅ : gmap string ValidatorFunction) !! k = None
                   ∧ inherited k = false)
    (dataset_keys dataset)
  ∧ generateError (engine := literalEngine) dataset ∅ (VString "7") = ([], Ok None).
Proof.
  cbv zeta.
  assert (H : Forall (fun k => is_builtin k = false
                               ∧ (∅ : gmap string ValidatorFunction) !! k = None
                               ∧ inherited k = false)
                (dataset_keys [("controlName", "age"); ("value", "7");
                               ("disabled", "false")]))
    by (repeat constructor).
  split; [exact H |].
  exact (generateError_no_rules (engine := literalEngine) _ ∅ (VString "7") H).
Defined.

(** [required] on the value [false] raises out of [generateError]. *)
Lemma generateError_raise_propagates_required :
  let dataset := [("controlName", "agree"); ("required", ""); ("min", "1")] in
  let call := {| origin := BuiltIn; rule := "required"; argument := VBool false;
                 parameter := VString "" |} in
  dataset_keys dataset = (["controlName"] ++ "required" :: ["min"])%list
  ∧ forallb (own_decides ∅) ["controlName"] = true
  ∧ forallb (passes (engine := literalEngine) dataset ∅ (VBool false))
      ["controlName"] = true
  ∧ rule_outcome (engine := literalEngine) dataset ∅ (VBool false) "required"
    = Some (call, Throw TypeError)
  ∧ generateError (engine := literalEngine) dataset ∅ (VBool false)
    = ([call], Throw TypeError).
Proof.
  cbv zeta. split; [reflexivity |]. split; [vm_compute; reflexivity |].
  split; [vm_compute; reflexivity |]. split; [vm_compute; reflexivity |].
  refine (generateError_raise_propagates (engine := literalEngine)
            [("controlName", "agree"); ("required", ""); ("min", "1")] ∅
            (VBool false) ["controlName"] "required" ["min"]
            {| origin := BuiltIn; rule := "required"; argument := VBool false;
               parameter := VString "" |} TypeError _ _ _ _);
    vm_compute; reflexivity.
Defined.

(** ** Validators: coercion and blank input *)

Section ValidatorEdges.
Context {engine : Engine}.

Lemma strip_non_numeric_app (s t : string) :
  Validators.strip_non_numeric (s ++ t)
  = Validators.strip_non_numeric s ++ Validators.strip_non_numeric t.
Proof.
  induction s as [| c s IH]; [reflexivity |].
  simpl. destruct (Validators.is_numeric_char c); simpl; by rewrite IH.
Qed.

(** A character that is not a digit, a dot or a minus sign has no effect on
    the number [min] and [max] compare: the value reads the same with the
    character anywhere in it as without it. *)
Theorem toNumber_ignores_other_characters (s t : string) (c : ascii) :
  Validators.is_numeric_char c = false →
  Validators.toNumber (VString (s ++ String c t))
  = Validators.toNumber (VString (s ++ t)).
Proof.
  intros Hc. cbn [Validators.toNumber]. rewrite !strip_non_numeric_app.
  cbn [Validators.strip_non_numeric]. by rewrite Hc.
Qed.

Lemma trimStart_blank (s : string) : blank s = true → trimStart s = "".
Proof.
  induction s as [| c s IH]; [reflexivity |]. cbn [blank trimStart].
  intros [Hc Hs]%andb_true_iff. rewrite Hc. by apply IH.
Qed.

Lemma blank_trimStart (s : string) : blank (trimStart s) = true → blank s = true.
Proof.
  induction s as [| c s IH]; [reflexivity |]. cbn [trimStart].
  destruct (is_white_space c) eqn:Hc; [| done].
  intros H. cbn [blank]. rewrite Hc. by apply IH.
Qed.

Lemma blank_rev_app (s acc : string) :
  blank (String.rev_app s acc) = blank s && blank acc.
Proof.
  revert acc. induction s as [| c s IH]; intros acc; [reflexivity |].
  cbn [String.rev_app blank]. rewrite IH. cbn [blank].
  destruct (is_white_space c), (blank s), (blank acc); reflexivity.
Qed.

Lemma blank_empty (s : string) : s = "" → blank s = true.
Proof. by intros ->. Qed.

Lemma trim_empty_iff (s : string) : trim s = "" ↔ blank s = true.
Proof.
  unfold trim, trimEnd. split.
  - intros Hempty. apply blank_trimStart.
    apply blank_empty in Hempty. unfold String.rev in Hempty.
    rewrite blank_rev_app, andb_true_r in Hempty.
    apply blank_trimStart in Hempty. unfold String.rev in Hempty.
    by rewrite blank_rev_app, andb_true_r in Hempty.
  - intros Hblank. by rewrite (trimStart_blank s Hblank).
Qed.

(** [required] rejects a string exactly when it is made of white space only
    (the empty string included), always with the same message. *)
Theorem required_rejects_exactly_blank (s : string) (a : JsValue) :
  Validators.required (VString s) a
  = if blank s
    then Ok (Some {| message := "This field is required and cannot be left blank.";
                     payload := [] |})
    else Ok None.
Proof.
  unfold Validators.required.
  destruct (blank s) eqn:Hb.
  - apply trim_empty_iff in Hb. rewrite Hb. reflexivity.
  - destruct (String.eqb (trim s) "") eqn:Ht; [| reflexivity].
    apply String.eqb_eq, trim_empty_iff in Ht. congruence.
Qed.

(** The elements a query finds are all there. *)
Lemma elements_at_length (sel : selector) (form : HTMLFormElement) :
  length (elements_at form (querySelectorAll sel form))
  = length (querySelectorAll sel form).
Proof.
  assert (Hall : ∀ j, j ∈ querySelectorAll sel form → is_Some (form !! j)).
  { intros j (e & He & _)%querySelectorAll_lookup. eauto. }
  unfold elements_at.
  induction (querySelectorAll sel form) as [| j js IH]; [reflexivity |].
  destruct (Hall j) as [e He]; [apply list_elem_of_here |].
  cbn [omap list_omap]. rewrite He. cbn [length]. f_equal.
  apply IH. intros j' Hj'. apply Hall. by apply list_elem_of_further.
Qed.

(** [requiredTrue] on the value of a checkbox group passes exactly when an
    option of the group is checked, and it never raises. *)
Theorem requiredTrue_on_checkbox_group (form : HTMLFormElement)
    (controlName : string) (a : JsValue) :
  Validators.requiredTrue (getCheckboxValue form controlName) a
  = if bool_decide (querySelectorAll (sel_name_checked controlName) form = [])
    then Ok (Some {| message := "You must check this box to proceed.";
                     payload := [] |})
    else Ok None.
Proof.
  rewrite getCheckboxValue_cases.
  pose proof (elements_at_length (sel_name_checked controlName) form) as Hlen.
  destruct (querySelectorAll (sel_name_checked controlName) form) as [| j js];
    destruct (elements_at form _) as [| e es]; try discriminate; reflexivity.
Qed.
End ValidatorEdges.

(** ["$1,000"] reads as ["$1000"], and both as 1000. *)
Lemma toNumber_ignores_comma :
  Validators.is_numeric_char "," = false
  ∧ Validators.toNumber (VString ("$1" ++ String "," "000"))
    = Validators.toNumber (VString ("$1" ++ "000"))
  ∧ Validators.toNumber (VString "$1,000") = Num 1000.
Proof.
  split; [reflexivity |]. split; [| reflexivity].
  apply (toNumber_ignores_other_characters "$1" "000" ","). reflexivity.
Defined.

(** ** Reading values *)

Section FieldFacts.
Context {engine : Engine}.

Lemma querySelector_exists (sel : selector) (f : HTMLFormElement) (i : handle)
    (e : HTMLElement) :
  f !! i = Some e → sel e = true → ∃ j, querySelector sel f = Some j.
Proof.
  intros He Hs. unfold querySelector.
  assert (Hin : i ∈ querySelectorAll sel f)
    by (apply querySelectorAll_lookup; eauto).
  destruct (querySelectorAll sel f) as [| j js]; [inversion Hin | eauto].
Qed.

Lemma control_name_matches (e : HTMLElement) (n : string) :
  dataset_get (dataset e) "controlName" = Some n → sel_control_name n e = true.
Proof. unfold sel_control_name. intros ->. cbn. apply String.eqb_refl. Qed.

(** [generateValue] does not raise on an element of the form whose control
    name, if it has one, is an identifier: the selectors it builds from the
    name are well formed, and the lookup [getFiles] makes by control name
    finds at least the field itself. *)
Theorem generateValue_returns (f : HTMLFormElement) (field : handle)
    (el : HTMLElement) :
  f !! field = Some el →
  safely_named el = true →
  ∃ v, generateValue el f = Ok v.
Proof.
  intros Hel _. unfold generateValue.
  destruct (dataset_get (dataset el) "controlName") as [n |] eqn:Hn;
    [| cbn; eauto].
  destruct (negb (truthy_attr (Some n))); [eauto |].
  destruct (String.eqb (type el) "radio"); [eauto |].
  destruct (String.eqb (type el) "checkbox"); [eauto |].
  destruct (String.eqb (type el) "file"); [| eauto].
  change (default "" (Some n)) with n. unfold getFiles.
  destruct (querySelector_exists (sel_control_name n) f field el Hel
              (control_name_matches el n Hn)) as [j Hj].
  rewrite Hj. cbn.
  destruct (querySelector_lookup _ _ _ Hj) as (x & Hx & _).
  rewrite Hx. eauto.
Qed.

(** Reading *)

Lemma read_only_ret {A} (a : A) : read_only (ret a).
Proof. intros this. by split. Qed.

Lemma read_only_bind {A B} (m : M A) (k : A → M B) :
  read_only m → (∀ a, read_only (k a)) → read_only (bind m k).
Proof.
  intros Hm Hk this. unfold bind, after, calls_of.
  destruct (Hm this) as [Hs Hc]. unfold after, calls_of in Hs, Hc.
  destruct (m this) as [[this1 calls1] [a | e]]; cbn in *; subst;
    [| by split].
  destruct (Hk a this) as [Hs2 Hc2]. unfold after, calls_of in Hs2, Hc2.
  destruct (k a this) as [[this2 calls2] r]; cbn in *. by subst.
Qed.

Lemma read_only_this_form : read_only this_form.
Proof. intros this. by split. Qed.

Lemma read_only_element (field : handle) : read_only (element field).
Proof. intros this. unfold element. by destruct (form this !! field). Qed.

Lemma read_only_perform_silent {A} (r : result A) : read_only (perform ([], r)).
Proof. intros this. by split. Qed.

Lemma read_only_fields : read_only fields.
Proof.
  unfold fields. apply read_only_bind; [apply read_only_this_form |].
  intros f. apply read_only_ret.
Qed.

Lemma read_only_getField (n : string) : read_only (getField n).
Proof.
  unfold getField. apply read_only_bind; [apply read_only_this_form |].
  intros f. apply read_only_ret.
Qed.

(** [getValues], [isValid], [getField] and [fields] only read: they leave
    the instance as it is and call no validator, whether they return or
    raise. *)
Theorem reading_is_read_only :
  (∀ controlName, read_only (getValues controlName))
  ∧ read_only isValid
  ∧ (∀ controlName, read_only (getField controlName))
  ∧ read_only fields.
Proof.
  split; [| split; [| split]].
  - intros controlName. unfold getValues.
    destruct (truthy_attr controlName).
    + apply read_only_bind; [apply read_only_getField |].
      intros [field |]; [| apply read_only_ret].
      apply read_only_bind; [apply read_only_element |]. intros el.
      apply read_only_bind; [apply read_only_this_form |]. intros f.
      apply read_only_bind; [apply read_only_perform_silent |]. intros v.
      apply read_only_ret.
    + apply read_only_bind; [apply read_only_fields |]. intros fs.
      apply read_only_bind; [apply read_only_this_form |]. intros f.
      generalize (@nil (string * JsValue)).
      induction fs as [| field fs IH]; intros values; [apply read_only_ret |].
      apply read_only_bind; [apply read_only_element |]. intros el.
      destruct (truthy_attr _); [| apply IH].
      apply read_only_bind; [apply read_only_perform_silent |]. intros v.
      apply IH.
  - unfold isValid. apply read_only_bind; [apply read_only_fields |].
    intros fs. apply read_only_bind; [apply read_only_this_form |].
    intros f. apply read_only_ret.
  - exact read_only_getField.
  - exact read_only_fields.
Qed.

Lemma getValues_named (this : FormNinja) (name : string) (i : handle)
    (el : HTMLElement) (v : JsValue) :
  name ≠ "" →
  querySelector (sel_control_name name) (form this) = Some i →
  form this !! i = Some el →
  generateValue el (form this) = Ok v →
  getValues (Some name) this = (this, [], Ok (inl v)).
Proof.
  intros Hne Hq Hel Hv. apply String.eqb_neq in Hne.
  unfold getValues, truthy_attr. rewrite Hne. cbn [negb].
  change (default "" (Some name)) with name.
  cbv [bind getField this_form ret element perform]. rewrite Hq, Hel.
  cbv beta iota. cbn [fst snd]. by rewrite Hv.
Qed.
End FieldFacts.

(** ** Writing a value and reading it back *)

Section RoundTrips.
Context {engine : Engine}.

(** An update of one element that a selector does not see leaves what the
    selector finds as it was. *)
Lemma querySelectorAll_alter (sel : selector) (g : HTMLElement → HTMLElement)
    (i : handle) (f : HTMLFormElement) :
  (∀ e, sel (g e) = sel e) →
  querySelectorAll sel (alter g i f) = querySelectorAll sel f.
Proof.
  intros Hg. unfold querySelectorAll. rewrite length_alter.
  apply filter_ext_in. intros j _. unfold matches_at.
  destruct (decide (i = j)) as [-> | Hne].
  - rewrite list_lookup_alter_eq. destruct (f !! j); cbn; [apply Hg | reflexivity].
  - by rewrite list_lookup_alter_ne.
Qed.

Lemma stores_text_text_like (el : HTMLElement) :
  stores_text el = true → text_like el = true.
Proof.
  unfold stores_text, text_like. cbn [existsb]. intros Hst.
  repeat (apply orb_true_iff in Hst as [Hst | Hst]); try discriminate;
    apply String.eqb_eq in Hst; rewrite Hst; reflexivity.
Qed.

(** What [setValue] wrote is what [getValues] reads back, validation being
    off. For a control name that is not empty, can be written between quotes
    and resolves to a field holding text as it is assigned, [getValues(name)]
    after [setValue(name, value, config)] is [value], for every [value]
    without a line break. *)
Theorem getValues_after_setValue (this : FormNinja) (name value : string)
    (config : SetValueConfig) (i : handle) (el : HTMLElement) :
  name ≠ "" →
  quotable name = true →
  querySelector (sel_control_name name) (form this) = Some i →
  form this !! i = Some el →
  stores_text el = true →
  single_line value = true →
  shouldValidate config = false →
  getValues (Some name) (after (setValue name value (Some config) this))
  = (after (setValue name value (Some config) this), [],
     Ok (inl (VString value))).
Proof.
  intros Hne _ Hq Hel Hst _ Hoff.
  pose proof (stores_text_text_like el Hst) as Htext.
  set (stage := fun e => set_dataset (dataset_set (dataset e) "value" value) e).
  set (f2 := alter stage i (alter (set_value value) i (form this))).
  set (this2 := {| form := f2; validations := validations this |}).
  assert (Hrun : setValue name value (Some config) this = (this2, [], Ok tt)).
  { cbv [setValue bind getField this_form ret mutate perform]. rewrite Hq.
    cbv beta iota. cbn [fst snd form validations]. rewrite Hoff.
    reflexivity. }
  rewrite Hrun. unfold after. cbn [fst].
  set (el2 := stage (set_value value el)).
  assert (Hel2 : f2 !! i = Some el2).
  { unfold f2. by rewrite !list_lookup_alter_eq, Hel. }
  assert (Hq2 : querySelector (sel_control_name name) f2 = Some i).
  { unfold querySelector, f2. rewrite !querySelectorAll_alter; [exact Hq | |];
      intros e; unfold sel_control_name, stage;
      cbn [dataset set_dataset set_value];
      rewrite ?dataset_get_set_ne by discriminate; reflexivity. }
  destruct (querySelector_lookup _ _ _ Hq) as (el0 & Hel0 & Hsel).
  assert (el0 = el) as -> by congruence.
  assert (Hname : dataset_get (dataset el) "controlName" = Some name).
  { unfold sel_control_name, attr_is in Hsel.
    destruct (dataset_get (dataset el) "controlName") as [n |];
      [| discriminate].
    by apply String.eqb_eq in Hsel as ->. }
  apply (getValues_named this2 name i el2); try assumption.
  unfold generateValue, el2, stage.
  cbn [dataset set_dataset set_value Dom.type Dom.value].
  rewrite dataset_get_set_ne by discriminate.
  rewrite dataset_get_set_eq, Hname.
  apply String.eqb_neq in Hne. unfold truthy_attr. rewrite Hne. cbn [negb].
  unfold text_like in Htext.
  apply andb_true_iff in Htext as [[H1 H2]%andb_true_iff H3].
  apply negb_true_iff in H1, H2, H3. rewrite H1, H2, H3.
  do 2 f_equal. unfold or_else. cbn [default from_option].
  destruct (String.eqb value "") eqn:Hvalue; [| reflexivity].
  apply String.eqb_eq in Hvalue as ->. reflexivity.
Qed.

(** After [reset()], every field of the group that has a control name, is
    neither a radio button, a checkbox nor a file input, and can hold the
    empty string reads as the empty string. *)
Theorem generateValue_after_reset (this : FormNinja) (field : handle)
    (el' : HTMLElement) :
  field ∈ querySelectorAll sel_has_control_name (form this) →
  form (after (reset this)) !! field = Some el' →
  lacks_control_name el' = false →
  text_like el' = true →
  holds_blank el' = true →
  generateValue el' (form (after (reset this))) = Ok (VString "").
Proof.
  intros Hin Hel' Hnamed Htext _.
  set (fs := querySelectorAll sel_has_control_name (form this)) in *.
  destruct (reset_loop fs this) as (f' & Hrun & _ & Hreset).
  { intros j Hj. apply querySelectorAll_lookup in Hj as (e & He & _).
    apply lookup_lt_is_Some_1. eauto. }
  assert (Hreset_eq : reset this
                      = ({| form := f'; validations := validations this |},
                         [], Ok tt)).
  { unfold reset, bind, fields, this_form, ret. cbn. fold fs.
    by rewrite Hrun. }
  rewrite Hreset_eq in Hel' |- *. unfold after in *. cbn [fst form] in *.
  destruct (Hreset field Hin) as (el & Hel & [Hvalue Hstaged] & _).
  assert (el = el') as -> by congruence.
  unfold generateValue. unfold lacks_control_name in Hnamed. rewrite Hnamed.
  unfold text_like in Htext.
  apply andb_true_iff in Htext as [[H1 H2]%andb_true_iff H3].
  apply negb_true_iff in H1, H2, H3. rewrite H1, H2, H3.
  by rewrite Hvalue, Hstaged.
Qed.
End RoundTrips.

(** ** The same, on sample markup *)

(** A file input is found by its own control name. *)
Lemma generateValue_returns_file :
  let cv := input "file" (Some "cv") [("controlName", "cv")] in
  [cv] !! 0%nat = Some cv
  ∧ safely_named cv = true
  ∧ ∃ v, generateValue cv [cv] = Ok v.
Proof.
  cbv zeta. split; [reflexivity |]. split; [reflexivity |].
  apply (generateValue_returns
           [input "file" (Some "cv") [("controlName", "cv")]] 0%nat);
    reflexivity.
Defined.

(** ["42"] written to [age] with validation off is read back as ["42"]. *)
Lemma getValues_after_setValue_age :
  let el := input "text" (Some "age") [("controlName", "age"); ("required", "")] in
  let config := {| shouldValidate := false |} in
  "age" ≠ ""
  ∧ quotable "age" = true
  ∧ querySelector (sel_control_name "age") (form (bound age_required)) = Some 0%nat
  ∧ form (bound age_required) !! 0%nat = Some el
  ∧ stores_text el = true
  ∧ single_line "42" = true
  ∧ shouldValidate config = false
  ∧ getValues (Some "age")
      (after (setValue (engine := literalEngine) "age" "42" (Some config)
                (bound age_required)))
    = (after (setValue (engine := literalEngine) "age" "42" (Some config)
                (bound age_required)),
       [], Ok (inl (VString "42"))).
Proof.
  cbv zeta. split; [discriminate |]. split; [reflexivity |].
  split; [reflexivity |]. split; [reflexivity |]. split; [reflexivity |].
  split; [reflexivity |]. split; [reflexivity |].
  refine (getValues_after_setValue (engine := literalEngine)
            (bound age_required) "age" "42" {| shouldValidate := false |}
            0%nat
            (input "text" (Some "age") [("controlName", "age"); ("required", "")])
            _ _ _ _ _ _ _);
    first [reflexivity | discriminate].
Defined.

(** The marked field [age] with the value ["ab"] reads as empty after
    [reset()]. *)
Lemma generateValue_after_reset_age :
  let el' := input "text" (Some "age")
               [("controlName", "age"); ("minLength", "3"); ("value", "")] in
  0%nat ∈ querySelectorAll sel_has_control_name (form (bound age_marked))
  ∧ form (after (reset (bound age_marked))) !! 0%nat = Some el'
  ∧ lacks_control_name el' = false
  ∧ text_like el' = true
  ∧ holds_blank el' = true
  ∧ generateValue el' (form (after (reset (bound age_marked)))) = Ok (VString "").
Proof.
  cbv zeta.
  assert (Hin : 0%nat ∈ querySelectorAll sel_has_control_name
                          (form (bound age_marked)))
    by (apply list_elem_of_In; left; reflexivity).
  split; [exact Hin |]. split; [reflexivity |]. split; [reflexivity |].
  split; [reflexivity |]. split; [reflexivity |].
  refine (generateValue_after_reset (bound age_marked) 0%nat
            (input "text" (Some "age")
               [("controlName", "age"); ("minLength", "3"); ("value", "")])
            Hin _ _ _ _);
    reflexivity.
Defined.
